(** * Flow-log tagging: a shallow embedding of [flow.py]

    The program reads a lookup table (rows of a CSV file), classifies every
    line of a flow log by destination port and protocol, keeps three
    counters and writes a two-section report.

    Conventions of the embedding.
    - A Python [str] is a [string]; a character is a code point below 256,
      on which [isspace] and [lower] below agree with Python.
    - A Python value that is a [str] or [None] is an [option string]
      ([PyStr s] / [PyNone]).
    - A Python [int] is a [Z].
    - The dict built by [parse_lookup_table] and the two constant
      collections of [parse_flow_logs] are only ever queried: they are a
      [gmap] and a [gset].  The two [defaultdict(int)] counters are iterated
      by [write_output], so they are insertion-ordered association lists.
    - File contents are what the readers yield: the row dicts of
      [csv.DictReader] and the lines of the flow log; the report is the
      sequence of rows handed to [csv.writer].  Console output is kept
      apart from the counters, as the list of the messages printed. *)

From Stdlib Require Import ZArith String Ascii List.
From stdpp Require Import base decidable option list gmap strings fin_maps.

Local Open Scope string_scope.
Local Open Scope list_scope.
Local Open Scope Z_scope.

(** ** Python strings *)

Module Str.

(** [str.isspace] on one character (code points below 256): TAB..CR,
    FS..US, SPACE, NEL and NBSP. *)
Definition isspace (c : ascii) : bool :=
  let n := nat_of_ascii c in
  ((9 <=? n)%nat && (n <=? 13)%nat)
  || ((28 <=? n)%nat && (n <=? 32)%nat)
  || (n =? 133)%nat || (n =? 160)%nat.

(** [str.lower] on one character: A..Z, and the Latin-1 capitals
    U+00C0..U+00DE except the multiplication sign U+00D7. *)
Definition lower_char (c : ascii) : ascii :=
  let n := nat_of_ascii c in
  if ((65 <=? n)%nat && (n <=? 90)%nat)
     || ((192 <=? n)%nat && (n <=? 222)%nat && negb (n =? 215)%nat)
  then ascii_of_nat (n + 32) else c.

Fixpoint lower (s : string) : string :=
  match s with
  | EmptyString => EmptyString
  | String c s' => String (lower_char c) (lower s')
  end.

Fixpoint lstrip (s : string) : string :=
  match s with
  | EmptyString => EmptyString
  | String c s' => if isspace c then lstrip s' else s
  end.

Fixpoint rstrip (s : string) : string :=
  match s with
  | EmptyString => EmptyString
  | String c s' =>
      match rstrip s' with
      | EmptyString => if isspace c then EmptyString else String c EmptyString
      | r => String c r
      end
  end.

(** [s.strip()] *)
Definition strip (s : string) : string := rstrip (lstrip s).

(** The token being read is kept reversed in [cur]. *)
Definition flush (cur : list ascii) : list string :=
  match cur with
  | [] => []
  | _ => [string_of_list_ascii (rev cur)]
  end.

Fixpoint split_from (cur : list ascii) (s : string) : list string :=
  match s with
  | EmptyString => flush cur
  | String c s' =>
      if isspace c then flush cur ++ split_from [] s'
      else split_from (c :: cur) s'
  end.

(** [s.split()] with no separator: maximal runs of non-space characters. *)
Definition split (s : string) : list string := split_from [] s.

End Str.

(** ** Python values and exceptions *)

Abbreviation value := (option string) (only parsing).
Abbreviation PyNone := (@None string) (only parsing).
Abbreviation PyStr := (@Some string) (only parsing).

Inductive exn : Type :=
| KeyError (k : string)
| AttributeError (attr : string).

Inductive result (A : Type) : Type :=
| Ok (a : A)
| Raise (e : exn).
Arguments Ok {A} a.
Arguments Raise {A} e.

Definition bind {A B} (m : result A) (f : A -> result B) : result B :=
  match m with
  | Ok a => f a
  | Raise e => Raise e
  end.

Notation "'let*' x ':=' m 'in' k" := (bind m (fun x => k))
  (at level 10, x name, m at level 100, k at level 200).

(** ** Insertion-ordered dictionaries: the [defaultdict(int)] counters *)

Module Counter.
Section counter.
Context {K : Type} `{EqDecision K}.

(** Items in insertion order; a key occurs at most once. *)
Definition t : Type := list (K * Z).

Definition empty : t := [].

(** The value [d[k]] would read: a missing key reads as [int()], 0. *)
Fixpoint get (k : K) (d : t) : Z :=
  match d with
  | [] => 0
  | (k', n) :: d' => if decide (k = k') then n else get k d'
  end.

(** [d[k] += 1]: a key already present keeps its position, a new key is
    appended with value [0 + 1]. *)
Fixpoint incr (k : K) (d : t) : t :=
  match d with
  | [] => [(k, 0 + 1)]
  | (k', n) :: d' =>
      if decide (k = k') then (k', n + 1) :: d' else (k', n) :: incr k d'
  end.

(** [d.items()] *)
Definition items (d : t) : list (K * Z) := d.

Definition keys (d : t) : list K := map fst d.

Definition total (d : t) : Z := fold_right (fun kv acc => snd kv + acc) 0 d.

End counter.
Arguments t K : clear implicits.
End Counter.

(** ** [parse_lookup_table] *)

(** A row as [csv.DictReader] yields it: a dict from column names to the
    row's fields.  A column that the header names and a short row does not
    reach holds [None]. *)
Abbreviation row := (gmap string (option string)) (only parsing).

(** [row[k]] *)
Definition getitem (r : row) (k : string) : result value :=
  match r !! k with
  | Some v => Ok v
  | None => Raise (KeyError k)
  end.

(** [v.lower()]: [None] has no such attribute. *)
Definition py_lower (v : value) : result string :=
  match v with
  | Some s => Ok (Str.lower s)
  | None => Raise (AttributeError "lower")
  end.

Abbreviation table := (gmap (option string * string) (option string)) (only parsing).

(** The body of the [for row in reader] loop. *)
Definition lookup_row (r : row) (lookup : table) : result table :=
  let* dstport := getitem r "dstport" in
  let* protocol := getitem r "protocol" in
  let* protocol := py_lower protocol in
  let key := (dstport, protocol) in
  let* tag := getitem r "tag" in
  Ok (<[key := tag]> lookup).

Fixpoint lookup_loop (rows : list row) (lookup : table) : result table :=
  match rows with
  | [] => Ok lookup
  | r :: rows' => let* lookup' := lookup_row r lookup in lookup_loop rows' lookup'
  end.

Definition parse_lookup_table (rows : list row) : result table :=
  lookup_loop rows ∅.

(** ** [parse_flow_logs] *)

(** [protocol_map = {'6': 'tcp'}] *)
Definition protocol_map : gmap string string := {[ "6" := "tcp" ]}.

(** [valid_ports] *)
Definition valid_ports : gset string :=
  {[ "22"; "23"; "25"; "80"; "110"; "143"; "443"; "993"; "1024"; "49158" ]}.

(** The three locals of [parse_flow_logs] that the loop updates. *)
Record counts : Type := Counts {
  tag_counts : Counter.t (option string);
  port_protocol_counts : Counter.t (string * string);
  untagged_count : Z
}.

Definition init : counts :=
  {| tag_counts := Counter.empty;
     port_protocol_counts := Counter.empty;
     untagged_count := 0 |}.

(** [parts = line.strip().split()] *)
Definition parts_of (line : string) : list string := Str.split (Str.strip line).

(** [parts[i]]; every use is behind the [len(parts) < 13] test. *)
Definition item (parts : list string) (i : nat) : string := nth i parts "".

(** [lookup.get(key, "Untagged")] *)
Definition lookup_get (lookup : table) (key : option string * string) : value :=
  default (PyStr "Untagged") (lookup !! key).

(** [untagged_count += 1] *)
Definition add_untagged (st : counts) : counts :=
  {| tag_counts := tag_counts st;
     port_protocol_counts := port_protocol_counts st;
     untagged_count := untagged_count st + 1 |}.

(** [tag_counts[tag] += 1] *)
Definition add_tag (tag : value) (st : counts) : counts :=
  {| tag_counts := Counter.incr tag (tag_counts st);
     port_protocol_counts := port_protocol_counts st;
     untagged_count := untagged_count st |}.

(** [port_protocol_counts[(dstport, protocol)] += 1] *)
Definition add_pair (key : string * string) (st : counts) : counts :=
  {| tag_counts := tag_counts st;
     port_protocol_counts := Counter.incr key (port_protocol_counts st);
     untagged_count := untagged_count st |}.

(** The body of the [for line in f] loop; a [continue] is an early result.
    The [or] of the second test short-circuits: the port is looked at only
    when [protocol_map.get] found a protocol. *)
Definition flow_line (lookup : table) (st : counts) (line : string) : counts :=
  let parts := parts_of line in
  if (length parts <? 13)%nat then st
  else
    let dstport := item parts 5 in
    let protocol_num := item parts 7 in
    match protocol_map !! protocol_num with
    | None => add_untagged st
    | Some protocol =>
        if negb (bool_decide (dstport ∈ valid_ports)) then add_untagged st
        else
          let tag := lookup_get lookup (PyStr dstport, protocol) in
          let st :=
            if negb (bool_decide (tag = PyStr "Untagged")) then add_tag tag st
            else add_untagged st in
          add_pair (dstport, protocol) st
    end.

Definition flow_loop (lookup : table) (lines : list string) (st : counts) : counts :=
  fold_left (flow_line lookup) lines st.

Definition parse_flow_logs (lines : list string) (lookup : table) : counts :=
  flow_loop lookup lines init.

(** The outcome of one line names the branch its processing takes:
    [Dropped] for the first [continue], [Untagged] for the second
    [continue] and for the [else] of the tag test, [Tagged] for its
    [then]. *)
Inductive outcome : Type :=
| Dropped
| Tagged (tag : option string)
| Untagged.

#[global] Instance outcome_eq_dec : EqDecision outcome.
Proof. solve_decision. Defined.

Definition classify (lookup : table) (line : string) : outcome :=
  let parts := parts_of line in
  if (length parts <? 13)%nat then Dropped
  else
    match protocol_map !! item parts 7 with
    | None => Untagged
    | Some protocol =>
        if negb (bool_decide (item parts 5 ∈ valid_ports)) then Untagged
        else
          let tag := lookup_get lookup (PyStr (item parts 5), protocol) in
          if negb (bool_decide (tag = PyStr "Untagged")) then Tagged tag
          else Untagged
    end.

(** The pair a line adds to [port_protocol_counts], if it reaches that
    statement. *)
Definition pair_of (line : string) : option (string * string) :=
  let parts := parts_of line in
  if (length parts <? 13)%nat then None
  else
    match protocol_map !! item parts 7 with
    | None => None
    | Some protocol =>
        if negb (bool_decide (item parts 5 ∈ valid_ports)) then None
        else Some (item parts 5, protocol)
    end.

(** ** [write_output] *)

(** An object handed to [csv.writer]: a [str], an [int] or [None]. *)
Inductive cell : Type :=
| CStr (s : string)
| CInt (n : Z)
| CNone.

Definition cell_of_value (v : value) : cell :=
  match v with
  | Some s => CStr s
  | None => CNone
  end.

(** The writer's state is the rows written so far, oldest first. *)
Definition writer (A : Type) : Type := list (list cell) -> A * list (list cell).

Definition wret {A} (a : A) : writer A := fun out => (a, out).

Definition wbind {A B} (m : writer A) (f : A -> writer B) : writer B :=
  fun out => let '(a, out') := m out in f a out'.

Declare Scope writer_scope.
Delimit Scope writer_scope with writer.
Notation "m ;; k" := (wbind m (fun _ => k))
  (at level 100, k at level 200, right associativity) : writer_scope.
Local Open Scope writer_scope.

(** [writer.writerow(cells)] *)
Definition writerow (cells : list cell) : writer unit :=
  fun out => (tt, out ++ [cells]).

(** [for x in xs: body x] *)
Fixpoint for_each {A} (xs : list A) (body : A -> writer unit) : writer unit :=
  match xs with
  | [] => wret tt
  | x :: xs' => body x ;; for_each xs' body
  end.

Definition write_output_body
    (tag_counts : Counter.t (option string))
    (port_protocol_counts : Counter.t (string * string))
    (untagged_count : Z) : writer unit :=
  writerow [CStr "Tag Counts:"] ;;
  writerow [CStr "Tag"; CStr "Count"] ;;
  for_each (Counter.items tag_counts)
    (fun '(tag, count) => writerow [cell_of_value tag; CInt count]) ;;
  writerow [CStr "Untagged"; CInt untagged_count] ;;
  writerow [] ;;
  writerow [CStr "Port/Protocol Combination Counts:"] ;;
  writerow [CStr "Port"; CStr "Protocol"; CStr "Count"] ;;
  for_each (Counter.items port_protocol_counts)
    (fun '((dstport, protocol), count) =>
       writerow [CStr dstport; CStr protocol; CInt count]).

(** The file is opened with mode ['w']: it starts empty. *)
Definition write_output
    (tag_counts : Counter.t (option string))
    (port_protocol_counts : Counter.t (string * string))
    (untagged_count : Z) : list (list cell) :=
  snd (write_output_body tag_counts port_protocol_counts untagged_count []).

(** ** [main] *)

(** The rows a run writes to [output.csv], given the rows read from
    [lookup.csv] and the lines read from [flow_logs.txt], or the exception
    the lookup loop ends with.  Only runs whose files open, read and write
    without error are covered: a failure of [open], of the readers, of
    [print] or of the writer has no value here. *)
Definition main (lookup_rows : list row) (flow_lines : list string)
  : result (list (list cell)) :=
  let* lookup := parse_lookup_table lookup_rows in
  let st := parse_flow_logs flow_lines lookup in
  Ok (write_output (tag_counts st) (port_protocol_counts st) (untagged_count st)).

(** ** Notions the statements below are written in *)

(** The three fields of a well-formed row, and the key it is stored
    under. *)
Definition has_fields (r : row) (f : option string * string * option string) : Prop :=
  r !! "dstport" = Some (fst (fst f))
  /\ r !! "protocol" = Some (PyStr (snd (fst f)))
  /\ r !! "tag" = Some (snd f).

Definition key_of (f : option string * string * option string)
  : option string * string :=
  (fst (fst f), Str.lower (snd (fst f))).

Definition store (t : table) (f : option string * string * option string) : table :=
  <[key_of f := snd f]> t.

(** A row lacks a field when the header has no such column, or when the
    row is too short to reach it. *)
Definition lacks (r : row) (k : string) : Prop :=
  r !! k = None \/ r !! k = Some PyNone.

(** A line is structurally valid when it has at least 13 tokens. *)
Definition structurally_valid (line : string) : bool :=
  negb (length (parts_of line) <? 13)%nat.

(** The distinct elements of a list, each at its first occurrence. *)
Fixpoint first_seen {A} `{EqDecision A} (l : list A) : list A :=
  match l with
  | [] => []
  | x :: l' => x :: filter (fun y => y <> x) (first_seen l')
  end.

Definition occurrences {A} `{EqDecision A} (x : A) (l : list A) : Z :=
  Z.of_nat (length (filter (fun y => y = x) l)).

(** Counting the elements of a list one by one into a counter. *)
Definition tally {K} `{EqDecision K} (l : list K) (d : Counter.t K) : Counter.t K :=
  fold_left (fun d k => Counter.incr k d) l d.

(** The tags, in line order, of the lines classified [Tagged]; the pairs,
    in line order, of the lines that reach the lookup. *)
Definition tags_seen (lookup : table) (lines : list string) : list (option string) :=
  omap (fun line => match classify lookup line with
                    | Tagged tag => Some tag
                    | _ => None
                    end) lines.

Definition pairs_seen (lines : list string) : list (string * string) :=
  omap pair_of lines.

Definition untagged_lines (lookup : table) (lines : list string) : list string :=
  filter (fun line => classify lookup line = Untagged) lines.

(** The report as the specification lays it out. *)
Definition tag_row (kv : option string * Z) : list cell :=
  [cell_of_value (fst kv); CInt (snd kv)].

Definition pair_row (kv : (string * string) * Z) : list cell :=
  [CStr (fst (fst kv)); CStr (snd (fst kv)); CInt (snd kv)].

Definition report_layout
    (tags : list (option string * Z)) (pairs : list ((string * string) * Z))
    (untagged : Z) : list (list cell) :=
  [[CStr "Tag Counts:"]; [CStr "Tag"; CStr "Count"]]
  ++ map tag_row tags
  ++ [[CStr "Untagged"; CInt untagged]; [];
      [CStr "Port/Protocol Combination Counts:"];
      [CStr "Port"; CStr "Protocol"; CStr "Count"]]
  ++ map pair_row pairs.

(** The rows of a section, from what was observed: one row per distinct
    key, in first-observation order, carrying its number of occurrences. *)
Definition section_of {K} `{EqDecision K} (seen : list K) : list (K * Z) :=
  map (fun k => (k, occurrences k seen)) (first_seen seen).

Definition report_of (lookup : table) (lines : list string) : list (list cell) :=
  report_layout (section_of (tags_seen lookup lines))
                (section_of (pairs_seen lines))
                (Z.of_nat (length (untagged_lines lookup lines))).

(** ** Console output *)

(** [f"{v}"] for a value that is a [str] or [None]. *)
Definition fmt (v : value) : string :=
  match v with
  | Some s => s
  | None => "None"
  end.

(** What the body of the [for line in f] loop prints for one line, one
    string per call of [print]. *)
Definition flow_line_prints (lookup : table) (line : string) : list string :=
  let parts := parts_of line in
  if (length parts <? 13)%nat then []
  else
    let dstport := item parts 5 in
    let protocol_num := item parts 7 in
    let protocol := protocol_map !! protocol_num in
    let shown :=
      ["Processing Line: " +:+ Str.strip line;
       "Destination Port: " +:+ dstport +:+ ", Protocol: " +:+ fmt protocol] in
    match protocol with
    | None => shown ++ ["Counted as Untagged"]
    | Some protocol =>
        if negb (bool_decide (dstport ∈ valid_ports))
        then shown ++ ["Counted as Untagged"]
        else
          let tag := lookup_get lookup (PyStr dstport, protocol) in
          if negb (bool_decide (tag = PyStr "Untagged")) then shown
          else shown ++ ["No tag found for Port: " +:+ dstport
                         +:+ ", Protocol: " +:+ protocol]
    end.

Definition parse_flow_logs_prints (lines : list string) (lookup : table)
  : list string :=
  concat (map (flow_line_prints lookup) lines).

(** The two messages that announce an untagged line. *)
Definition untagged_message (s : string) : bool :=
  String.eqb s "Counted as Untagged"
  || String.prefix "No tag found for Port: " s.

Definition processing_message (s : string) : bool :=
  String.prefix "Processing Line: " s.

(** ** More notions for the statements *)

(** A row the loop of [parse_lookup_table] gets through. *)
Definition well_formed (r : row) : Prop :=
  is_Some (r !! "dstport")
  /\ (exists protocol, r !! "protocol" = Some (PyStr protocol))
  /\ is_Some (r !! "tag").

(** The key and the tag a row stores, when it has what the loop reads. *)
Definition entry_of (r : row) : option ((option string * string) * option string) :=
  match r !! "dstport", r !! "protocol", r !! "tag" with
  | Some dstport, Some (Some protocol), Some tag =>
      Some ((dstport, Str.lower protocol), tag)
  | _, _, _ => None
  end.

(** A token as [split] yields it: not empty, no whitespace in it. *)
Definition clean_token (tok : string) : Prop :=
  tok <> "" /\ forall c, c ∈ list_ascii_of_string tok -> Str.isspace c = false.

(** Tokens written one after the other, a space after each. *)
Fixpoint spaced (toks : list string) : string :=
  match toks with
  | [] => ""
  | tok :: toks' => tok +:+ " " +:+ spaced toks'
  end.

(** A line that reaches the lookup: at least 13 tokens, protocol ["6"],
    port in the valid set. *)
Definition reaches_lookup (line : string) : Prop :=
  (13 <= length (parts_of line))%nat
  /\ item (parts_of line) 7 = "6"
  /\ item (parts_of line) 5 ∈ valid_ports.

#[global] Instance reaches_lookup_dec line : Decision (reaches_lookup line).
Proof. unfold reaches_lookup. apply _. Defined.

(** ** Sample inputs *)

Module Sample.

Definition lookup_rec (dstport protocol tag : string) : gmap string (option string) :=
  {[ "dstport" := PyStr dstport; "protocol" := PyStr protocol; "tag" := PyStr tag ]}.

(** A row that stops after its second field, under the header
    [dstport,protocol,tag]. *)
Definition short_rec (dstport protocol : string) : gmap string (option string) :=
  {[ "dstport" := PyStr dstport; "protocol" := PyStr protocol; "tag" := PyNone ]}.

(** A version-2 flow-log line (14 tokens and the newline) to a given
    destination port with a given protocol number. *)
Definition flow (dstport protocol_num : string) : string :=
  "2 123456789012 eni-0a1b2c3d 10.0.1.201 198.51.100.2 " ++ dstport
  ++ " 49153 " ++ protocol_num
  ++ " 25 20000 1620140761 1620140821 ACCEPT OK" ++ String (ascii_of_nat 10) "".

Definition short_line : string := "2 123456789012 eni-0a1b2c3d 10.0.1.201".

Definition web_table : gmap (option string * string) (option string) :=
  {[ (PyStr "80", "tcp") := PyStr "web"; (PyStr "25", "tcp") := PyStr "email" ]}.

Definition sentinel_table : gmap (option string * string) (option string) :=
  {[ (PyStr "80", "tcp") := PyStr "Untagged" ]}.

End Sample.

(** * Properties *)

(** ** Strings *)

(** Stripping a line first does not change its tokens. *)
Lemma split_from_lstrip s : Str.split_from [] (Str.lstrip s) = Str.split_from [] s.
Proof.
  induction s as [|c s IH]; [done|].
  cbn [Str.lstrip Str.split_from]. by destruct (Str.isspace c) eqn:Hc; [|cbn; rewrite Hc].
Qed.

Lemma split_from_rstrip cur s :
  Str.split_from cur (Str.rstrip s) = Str.split_from cur s.
Proof.
  revert cur. induction s as [|c s IH]; intros cur; [done|].
  cbn [Str.rstrip Str.split_from].
  destruct (Str.rstrip s) as [|c' r] eqn:Hr.
  - destruct (Str.isspace c) eqn:Hc.
    + rewrite <- IH. cbn [Str.split_from Str.flush]. by rewrite app_nil_r.
    + rewrite <- IH. cbn [Str.split_from]. by rewrite Hc.
  - cbn [Str.split_from]. destruct (Str.isspace c); by rewrite <- IH.
Qed.

Lemma parts_of_split line : parts_of line = Str.split line.
Proof.
  unfold parts_of, Str.strip, Str.split.
  by rewrite split_from_rstrip, split_from_lstrip.
Qed.

(** ** Counters *)

Section counter_facts.
Context {K : Type} `{EqDecision K}.
Implicit Types (k x : K) (d : Counter.t K) (l : list K).

Lemma get_incr_eq k d :
  Counter.get k (Counter.incr k d) = Counter.get k d + 1.
Proof.
  induction d as [|[k' n] d IH]; simpl.
  - by rewrite decide_True.
  - destruct (decide (k = k')) as [->|Hne]; simpl.
    + by rewrite decide_True.
    + by rewrite decide_False.
Qed.

Lemma get_incr_ne k k' d :
  k <> k' -> Counter.get k' (Counter.incr k d) = Counter.get k' d.
Proof.
  intros Hne. induction d as [|[k0 n] d IH]; simpl.
  - rewrite decide_False; [done | congruence].
  - destruct (decide (k = k0)) as [->|Hne0]; simpl.
    + rewrite !decide_False; [done | congruence | congruence].
    + by rewrite IH.
Qed.

Lemma get_incr_le k k' d :
  Counter.get k' d <= Counter.get k' (Counter.incr k d).
Proof.
  destruct (decide (k = k')) as [->|Hne].
  - rewrite get_incr_eq. lia.
  - rewrite get_incr_ne by done. lia.
Qed.

Lemma total_cons k n d : Counter.total ((k, n) :: d) = n + Counter.total d.
Proof. reflexivity. Qed.

Lemma total_incr k d : Counter.total (Counter.incr k d) = Counter.total d + 1.
Proof.
  induction d as [|[k' n] d IH]; [done|].
  cbn [Counter.incr]. destruct (decide (k = k')); rewrite !total_cons; lia.
Qed.

Lemma keys_incr k d :
  Counter.keys (Counter.incr k d)
  = if decide (k ∈ Counter.keys d) then Counter.keys d else Counter.keys d ++ [k].
Proof.
  unfold Counter.keys.
  induction d as [|[k' n] d IH]; cbn [Counter.incr map fst].
  - destruct (decide (k ∈ [])) as [Hin|_]; [by apply elem_of_nil in Hin | done].
  - destruct (decide (k = k')) as [->|Hne]; cbn [map fst].
    + rewrite decide_True; [done | by left].
    + rewrite IH.
      destruct (decide (k ∈ map fst d)) as [Hin|Hnin].
      * rewrite decide_True; [done | by right].
      * rewrite decide_False; [done|].
        intros [?|?]%elem_of_cons; done.
Qed.

(** A counter is its keys, in order, each with its count. *)
Lemma counter_eta d :
  NoDup (Counter.keys d) ->
  d = map (fun k => (k, Counter.get k d)) (Counter.keys d).
Proof.
  induction d as [|[k n] d IH]; simpl; [done|].
  intros [Hnin Hnd]%NoDup_cons.
  rewrite decide_True by done. f_equal.
  rewrite IH at 1 by done. unfold Counter.keys.
  apply map_ext_in. intros k' Hin.
  rewrite decide_False; [done|].
  intros ->. apply Hnin. by apply list_elem_of_In.
Qed.

Lemma tally_snoc l x d : tally (l ++ [x]) d = Counter.incr x (tally l d).
Proof. unfold tally. by rewrite fold_left_app. Qed.

Lemma elem_of_first_seen x l : x ∈ first_seen l <-> x ∈ l.
Proof.
  induction l as [|y l IH]; cbn [first_seen]; [done|].
  rewrite !elem_of_cons, list_elem_of_filter, IH.
  split.
  - intros [->|[_ Hin]]; [by left | by right].
  - intros [->|Hin]; [by left|].
    destruct (decide (x = y)) as [->|Hne]; [by left | by right].
Qed.

Lemma NoDup_first_seen l : NoDup (first_seen l).
Proof.
  induction l as [|y l IH]; cbn [first_seen]; [constructor|].
  apply NoDup_cons. split.
  - rewrite list_elem_of_filter. intros [Hne _]. by apply Hne.
  - by apply NoDup_filter.
Qed.

Lemma first_seen_snoc l x :
  first_seen (l ++ [x])
  = if decide (x ∈ l) then first_seen l else first_seen l ++ [x].
Proof.
  induction l as [|y l IH]; cbn [first_seen app].
  - rewrite filter_nil.
    destruct (decide (x ∈ [])) as [Hin|_]; [by apply elem_of_nil in Hin | done].
  - rewrite IH. destruct (decide (x ∈ l)) as [Hin|Hnin].
    + rewrite decide_True; [done | by right].
    + rewrite filter_app.
      destruct (decide (x = y)) as [->|Hne].
      * rewrite decide_True by (by left).
        rewrite filter_cons_False by (intros Hne; by apply Hne).
        by rewrite filter_nil, app_nil_r.
      * rewrite decide_False by (intros [?|?]%elem_of_cons; done).
        by rewrite filter_cons_True, filter_nil by done.
Qed.

Lemma occurrences_snoc k l x :
  occurrences k (l ++ [x]) = occurrences k l + (if decide (x = k) then 1 else 0).
Proof.
  unfold occurrences. rewrite filter_app, length_app. simpl.
  destruct (decide (x = k)).
  - rewrite filter_cons_True, filter_nil by done. simpl. lia.
  - rewrite filter_cons_False, filter_nil by done. simpl. lia.
Qed.

Lemma keys_tally l : Counter.keys (tally l Counter.empty) = first_seen l.
Proof.
  induction l as [|x l IH] using rev_ind; [done|].
  rewrite tally_snoc, keys_incr, first_seen_snoc, IH.
  destruct (decide (x ∈ l)) as [Hin|Hnin].
  - rewrite decide_True; [done | by apply elem_of_first_seen].
  - rewrite decide_False; [done | by rewrite elem_of_first_seen].
Qed.

Lemma get_tally k l : Counter.get k (tally l Counter.empty) = occurrences k l.
Proof.
  induction l as [|x l IH] using rev_ind; [done|].
  rewrite tally_snoc, occurrences_snoc.
  destruct (decide (x = k)) as [->|Hne].
  - by rewrite get_incr_eq, IH.
  - rewrite get_incr_ne, IH by done. lia.
Qed.

(** Counting a list into an empty counter gives the section the
    specification describes. *)
Lemma tally_section l : tally l Counter.empty = section_of l.
Proof.
  unfold section_of.
  rewrite (counter_eta (tally l Counter.empty)).
  - rewrite keys_tally. apply map_ext. intros k. by rewrite get_tally.
  - rewrite keys_tally. apply NoDup_first_seen.
Qed.

Lemma total_tally l d : Counter.total (tally l d) = Counter.total d + Z.of_nat (length l).
Proof.
  induction l as [|x l IH] using rev_ind; simpl; [lia|].
  rewrite tally_snoc, total_incr, IH, length_app. simpl. lia.
Qed.

Lemma get_tally_le k l d : Counter.get k d <= Counter.get k (tally l d).
Proof.
  induction l as [|x l IH] using rev_ind; simpl; [lia|].
  rewrite tally_snoc. pose proof (get_incr_le x k (tally l d)). lia.
Qed.

End counter_facts.

(** ** The lookup table *)

Section lookup_facts.
Implicit Types (r : gmap string (option string))
  (t : gmap (option string * string) (option string))
  (f : option string * string * option string).

Lemma lookup_row_fields r f t :
  has_fields r f -> lookup_row r t = Ok (store t f).
Proof.
  destruct f as [[d p] tg]. intros (Hd & Hp & Ht). simpl in *.
  unfold lookup_row, getitem. rewrite Hd. simpl. rewrite Hp. simpl.
  by rewrite Ht.
Qed.

Lemma lookup_loop_fields rows fields t :
  Forall2 has_fields rows fields ->
  lookup_loop rows t = Ok (fold_left store fields t).
Proof.
  intros Hall. revert t.
  induction Hall as [|r f rows fields Hr _ IH]; intros t; simpl; [done|].
  rewrite (lookup_row_fields r f t Hr). simpl. apply IH.
Qed.

Lemma store_all_absent fields t k :
  k ∉ map key_of fields -> fold_left store fields t !! k = t !! k.
Proof.
  revert t. induction fields as [|f fields IH]; intros t Hk; simpl; [done|].
  simpl in Hk. apply not_elem_of_cons in Hk as [Hne Hk].
  rewrite IH by done. unfold store. by rewrite lookup_insert_ne.
Qed.

Lemma store_all_last before f after t :
  key_of f ∉ map key_of after ->
  fold_left store (before ++ f :: after) t !! key_of f = Some (snd f).
Proof.
  intros Hk. rewrite fold_left_app. simpl.
  rewrite store_all_absent by done.
  unfold store. by rewrite lookup_insert_eq.
Qed.

Lemma lookup_row_raises r t :
  r !! "dstport" = None \/ lacks r "protocol" \/ r !! "tag" = None ->
  exists e, lookup_row r t = Raise e.
Proof.
  unfold lookup_row, getitem, lacks.
  destruct (r !! "dstport") as [d|]; simpl; [|by eauto].
  destruct (r !! "protocol") as [[p|]|]; simpl; [|by eauto|by eauto].
  destruct (r !! "tag") as [tg|]; simpl; [|by eauto].
  intros [?|[[?|?]|?]]; done.
Qed.

Lemma lookup_loop_raises rows r t :
  r ∈ rows ->
  r !! "dstport" = None \/ lacks r "protocol" \/ r !! "tag" = None ->
  exists e, lookup_loop rows t = Raise e.
Proof.
  intros Hin Hbad. revert t.
  induction rows as [|r' rows IH]; intros t; [by apply elem_of_nil in Hin|].
  simpl. apply elem_of_cons in Hin as [<-|Hin].
  - destruct (lookup_row_raises r t Hbad) as [e ->]. by exists e.
  - destruct (lookup_row r' t) as [t'|e]; simpl; [by apply IH | by exists e].
Qed.

End lookup_facts.

(** ** One flow-log line *)

Section flow_facts.
Variable lookup : gmap (option string * string) (option string).
Implicit Types (st : counts) (line : string).

(** Each counter after one line, from the outcome of the line. *)
Lemma tag_counts_flow_line st line :
  tag_counts (flow_line lookup st line)
  = match classify lookup line with
    | Tagged tag => Counter.incr tag (tag_counts st)
    | _ => tag_counts st
    end.
Proof.
  unfold flow_line, classify.
  destruct (length (parts_of line) <? 13)%nat; [done|].
  destruct (protocol_map !! item (parts_of line) 7) as [protocol|]; [|done].
  destruct (negb (bool_decide (item (parts_of line) 5 ∈ valid_ports))); [done|].
  by destruct (negb (bool_decide (lookup_get lookup _ = PyStr "Untagged"))).
Qed.

Lemma pair_counts_flow_line st line :
  port_protocol_counts (flow_line lookup st line)
  = match pair_of line with
    | Some key => Counter.incr key (port_protocol_counts st)
    | None => port_protocol_counts st
    end.
Proof.
  unfold flow_line, pair_of.
  destruct (length (parts_of line) <? 13)%nat; [done|].
  destruct (protocol_map !! item (parts_of line) 7) as [protocol|]; [|done].
  destruct (negb (bool_decide (item (parts_of line) 5 ∈ valid_ports))); [done|].
  by destruct (negb (bool_decide (lookup_get lookup _ = PyStr "Untagged"))).
Qed.

Lemma untagged_count_flow_line st line :
  untagged_count (flow_line lookup st line)
  = untagged_count st
    + (if decide (classify lookup line = Untagged) then 1 else 0).
Proof.
  unfold flow_line, classify.
  destruct (length (parts_of line) <? 13)%nat; simpl; [lia|].
  destruct (protocol_map !! item (parts_of line) 7) as [protocol|]; [|done].
  destruct (negb (bool_decide (item (parts_of line) 5 ∈ valid_ports))); [done|].
  destruct (negb (bool_decide (lookup_get lookup _ = PyStr "Untagged")));
    simpl; lia.
Qed.

(** A structurally valid line is never [Dropped], and the other way round. *)
Lemma classify_dropped line :
  classify lookup line = Dropped <-> structurally_valid line = false.
Proof.
  unfold classify, structurally_valid.
  destruct (length (parts_of line) <? 13)%nat; simpl; [done|].
  destruct (protocol_map !! item (parts_of line) 7) as [protocol|]; [|done].
  destruct (negb (bool_decide (item (parts_of line) 5 ∈ valid_ports))); [done|].
  by destruct (negb (bool_decide (lookup_get lookup _ = PyStr "Untagged"))).
Qed.

(** The protocol map knows the code ["6"] only. *)
Lemma protocol_map_6 : protocol_map !! "6" = Some "tcp".
Proof. reflexivity. Qed.

Lemma protocol_map_other code : code <> "6" -> protocol_map !! code = None.
Proof. intros Hne. unfold protocol_map. by rewrite lookup_singleton_ne. Qed.

Lemma protocol_map_Some code name :
  protocol_map !! code = Some name -> code = "6" /\ name = "tcp".
Proof.
  unfold protocol_map. intros H.
  apply lookup_singleton_Some in H as [<- <-]. done.
Qed.

(** ** A whole pass *)

Lemma tag_counts_flow_loop lines st :
  tag_counts (flow_loop lookup lines st)
  = tally (tags_seen lookup lines) (tag_counts st).
Proof.
  revert st. induction lines as [|line lines IH]; intros st; [done|].
  unfold flow_loop in *. cbn [fold_left]. rewrite IH, tag_counts_flow_line.
  unfold tags_seen. cbn [omap list_omap].
  by destruct (classify lookup line).
Qed.

Lemma pair_counts_flow_loop lines st :
  port_protocol_counts (flow_loop lookup lines st)
  = tally (pairs_seen lines) (port_protocol_counts st).
Proof.
  revert st. induction lines as [|line lines IH]; intros st; [done|].
  unfold flow_loop in *. cbn [fold_left]. rewrite IH, pair_counts_flow_line.
  unfold pairs_seen. cbn [omap list_omap].
  by destruct (pair_of line).
Qed.

Lemma untagged_count_flow_loop lines st :
  untagged_count (flow_loop lookup lines st)
  = untagged_count st + Z.of_nat (length (untagged_lines lookup lines)).
Proof.
  revert st. induction lines as [|line lines IH]; intros st.
  - simpl. lia.
  - unfold flow_loop in *. cbn [fold_left].
    rewrite IH, untagged_count_flow_line.
    unfold untagged_lines. rewrite filter_cons.
    destruct (decide (classify lookup line = Untagged)); simpl; lia.
Qed.

(** Every structurally valid line is either tagged or untagged. *)
Lemma valid_lines_split lines :
  length (filter (fun line => structurally_valid line = true) lines)
  = (length (tags_seen lookup lines) + length (untagged_lines lookup lines))%nat.
Proof.
  unfold tags_seen, untagged_lines.
  induction lines as [|line lines IH]; [done|].
  rewrite !filter_cons. cbn [omap list_omap].
  assert (structurally_valid line
          = match classify lookup line with Dropped => false | _ => true end)
    as ->.
  { destruct (classify_dropped line) as [Hd1 Hd2].
    destruct (classify lookup line), (structurally_valid line); try done;
      [by apply Hd1 | by specialize (Hd2 eq_refl) ..]. }
  destruct (classify lookup line); repeat case_decide; try done;
    cbn [length]; lia.
Qed.

End flow_facts.

(** ** Classification of one line *)

(** Closed goals over the sample inputs are settled by evaluation. *)
Ltac evaluate :=
  first [ vm_compute; reflexivity
        | apply (bool_decide_unpack _); vm_compute; exact I
        | vm_compute; lia
        | discriminate ].

Section line_claims.
Variable lookup : gmap (option string * string) (option string).
Implicit Types (st : counts) (line port : string).

(** C2. A line whose split has fewer than 13 tokens is dropped: its
    outcome is [Dropped] and the three counters come out as they went in. *)
Theorem short_line_dropped st line :
  (length (parts_of line) < 13)%nat ->
  classify lookup line = Dropped /\ flow_line lookup st line = st.
Proof.
  intros Hlen. apply Nat.ltb_lt in Hlen.
  unfold classify, flow_line. by rewrite Hlen.
Qed.

(** C1, amended. A line with at least 13 tokens, protocol token ["6"], a
    port token in the valid set and a lookup entry for (port, tcp) whose tag
    is not the string ["Untagged"] is [Tagged] with that tag; the tag's count
    and the pair's count each grow by one, nothing else changes. *)
Theorem tagged_line_counts st line port tag :
  (13 <= length (parts_of line))%nat ->
  item (parts_of line) 7 = "6" ->
  item (parts_of line) 5 = port ->
  port ∈ valid_ports ->
  lookup !! (PyStr port, "tcp") = Some tag ->
  tag <> PyStr "Untagged" ->
  classify lookup line = Tagged tag
  /\ flow_line lookup st line = add_pair (port, "tcp") (add_tag tag st)
  /\ Counter.get tag (tag_counts (flow_line lookup st line))
     = Counter.get tag (tag_counts st) + 1
  /\ Counter.get (port, "tcp") (port_protocol_counts (flow_line lookup st line))
     = Counter.get (port, "tcp") (port_protocol_counts st) + 1
  /\ untagged_count (flow_line lookup st line) = untagged_count st.
Proof.
  intros Hlen Hproto Hport Hvalid Hfound Htag.
  assert ((length (parts_of line) <? 13)%nat = false) as Hge by (by apply Nat.ltb_ge).
  assert (classify lookup line = Tagged tag
          /\ flow_line lookup st line = add_pair (port, "tcp") (add_tag tag st))
    as [Hc Hst].
  { unfold classify, flow_line, lookup_get.
    rewrite Hge, Hproto, protocol_map_6, Hport, Hfound.
    rewrite (bool_decide_eq_true_2 _ Hvalid). cbn [negb default].
    by rewrite (bool_decide_eq_false_2 _ Htag). }
  rewrite Hst. repeat split; [done | | ]; simpl; apply get_incr_eq.
Qed.

(** C3. A line with at least 13 tokens, protocol token ["6"], a port token
    in the valid set and no lookup entry for (port, tcp) is [Untagged]: the
    untagged count and the pair's count each grow by one, and the tag
    counts are untouched. *)
Theorem lookup_miss_untagged st line port :
  (13 <= length (parts_of line))%nat ->
  item (parts_of line) 7 = "6" ->
  item (parts_of line) 5 = port ->
  port ∈ valid_ports ->
  lookup !! (PyStr port, "tcp") = None ->
  classify lookup line = Untagged
  /\ flow_line lookup st line = add_pair (port, "tcp") (add_untagged st)
  /\ untagged_count (flow_line lookup st line) = untagged_count st + 1
  /\ Counter.get (port, "tcp") (port_protocol_counts (flow_line lookup st line))
     = Counter.get (port, "tcp") (port_protocol_counts st) + 1
  /\ tag_counts (flow_line lookup st line) = tag_counts st.
Proof.
  intros Hlen Hproto Hport Hvalid Hmiss.
  assert ((length (parts_of line) <? 13)%nat = false) as Hge by (by apply Nat.ltb_ge).
  assert (classify lookup line = Untagged
          /\ flow_line lookup st line = add_pair (port, "tcp") (add_untagged st))
    as [Hc Hst].
  { unfold classify, flow_line, lookup_get.
    rewrite Hge, Hproto, protocol_map_6, Hport, Hmiss.
    by rewrite (bool_decide_eq_true_2 _ Hvalid). }
  rewrite Hst. repeat split; [done | ]; simpl; apply get_incr_eq.
Qed.

(** C4. A line with at least 13 tokens whose protocol token is not ["6"],
    or whose port token is outside the valid set, is [Untagged]: the
    untagged count grows by one, and neither the pair counts nor the tag
    counts change. *)
Theorem filtered_line_untagged st line :
  (13 <= length (parts_of line))%nat ->
  item (parts_of line) 7 <> "6" \/ item (parts_of line) 5 ∉ valid_ports ->
  classify lookup line = Untagged
  /\ flow_line lookup st line = add_untagged st
  /\ untagged_count (flow_line lookup st line) = untagged_count st + 1
  /\ port_protocol_counts (flow_line lookup st line) = port_protocol_counts st
  /\ tag_counts (flow_line lookup st line) = tag_counts st.
Proof.
  intros Hlen Hbad.
  assert ((length (parts_of line) <? 13)%nat = false) as Hge by (by apply Nat.ltb_ge).
  assert (classify lookup line = Untagged
          /\ flow_line lookup st line = add_untagged st) as [Hc Hst].
  { unfold classify, flow_line. rewrite Hge.
    destruct (protocol_map !! item (parts_of line) 7) as [protocol|] eqn:Hp;
      [|done].
    apply protocol_map_Some in Hp as [Hp _].
    destruct Hbad as [Hne|Hnin]; [done|].
    by rewrite (bool_decide_eq_false_2 _ Hnin). }
  by rewrite Hst.
Qed.

End line_claims.

Lemma short_line_dropped_witness :
  (length (parts_of Sample.short_line) < 13)%nat
  /\ classify Sample.web_table Sample.short_line = Dropped
  /\ flow_line Sample.web_table init Sample.short_line = init.
Proof.
  split; [evaluate|].
  apply (short_line_dropped Sample.web_table init Sample.short_line). evaluate.
Defined.

Lemma tagged_line_counts_witness :
  let lookup := Sample.web_table in
  let line := Sample.flow "80" "6" in
  let st := flow_line lookup init line in
  classify lookup line = Tagged (PyStr "web")
  /\ st = add_pair ("80", "tcp") (add_tag (PyStr "web") init)
  /\ Counter.get (PyStr "web") (tag_counts st)
     = Counter.get (PyStr "web") (tag_counts init) + 1
  /\ Counter.get ("80", "tcp") (port_protocol_counts st)
     = Counter.get ("80", "tcp") (port_protocol_counts init) + 1
  /\ untagged_count st = untagged_count init.
Proof.
  cbv zeta.
  apply (tagged_line_counts Sample.web_table init (Sample.flow "80" "6")
           "80" (PyStr "web")); evaluate.
Defined.

(** C1 as stated fails when the entry's tag is the string ["Untagged"],
    the default that [lookup.get] also returns on a miss: the line is
    counted as untagged and no tag count moves. *)
Lemma tagged_line_sentinel_counterexample :
  let lookup := Sample.sentinel_table in
  let line := Sample.flow "80" "6" in
  let tag := PyStr "Untagged" in
  let st := flow_line lookup init line in
  ((13 <= length (parts_of line))%nat
   /\ item (parts_of line) 7 = "6"
   /\ item (parts_of line) 5 = "80"
   /\ "80" ∈ valid_ports
   /\ lookup !! (PyStr "80", "tcp") = Some tag)
  /\ classify lookup line = Untagged
  /\ classify lookup line <> Tagged tag
  /\ Counter.get tag (tag_counts st) = Counter.get tag (tag_counts init)
  /\ untagged_count st = untagged_count init + 1.
Proof.
  cbv zeta. repeat split; evaluate.
Qed.

Lemma lookup_miss_untagged_witness :
  let lookup := Sample.web_table in
  let line := Sample.flow "22" "6" in
  let st := flow_line lookup init line in
  classify lookup line = Untagged
  /\ st = add_pair ("22", "tcp") (add_untagged init)
  /\ untagged_count st = untagged_count init + 1
  /\ Counter.get ("22", "tcp") (port_protocol_counts st)
     = Counter.get ("22", "tcp") (port_protocol_counts init) + 1
  /\ tag_counts st = tag_counts init.
Proof.
  cbv zeta.
  apply (lookup_miss_untagged Sample.web_table init (Sample.flow "22" "6") "22");
    evaluate.
Defined.

Lemma filtered_line_untagged_witness :
  let lookup := Sample.web_table in
  let line := Sample.flow "80" "17" in
  let st := flow_line lookup init line in
  classify lookup line = Untagged
  /\ st = add_untagged init
  /\ untagged_count st = untagged_count init + 1
  /\ port_protocol_counts st = port_protocol_counts init
  /\ tag_counts st = tag_counts init.
Proof.
  cbv zeta.
  apply (filtered_line_untagged Sample.web_table init (Sample.flow "80" "17"));
    [evaluate | left; evaluate].
Defined.

(** ** Building the lookup table *)

(** C5. When the rows have their three fields and their keys (the port
    string as given, the protocol lowercased) are pairwise distinct, the
    table is built and answers every row's key with that row's tag.  Keys
    are compared as they are written: a key that no row builds, such as
    port ["80"] when the row says ["080"], has no answer. *)
Theorem lookup_table_distinct_keys
    (rows : list (gmap string (option string)))
    (fields : list (option string * string * option string)) :
  Forall2 has_fields rows fields ->
  NoDup (map key_of fields) ->
  exists t,
    parse_lookup_table rows = Ok t
    /\ (forall dstport protocol tag,
          (dstport, protocol, tag) ∈ fields ->
          t !! (dstport, Str.lower protocol) = Some tag)
    /\ (forall key, key ∉ map key_of fields -> t !! key = None).
Proof.
  intros Hrows Hnodup. exists (fold_left store fields ∅).
  split; [by apply lookup_loop_fields|]. split.
  - intros d p tg Hin.
    apply list_elem_of_split in Hin as (before & after & ->).
    rewrite map_app in Hnodup. cbn [map] in Hnodup.
    apply NoDup_app in Hnodup as (_ & _ & Hafter).
    apply NoDup_cons in Hafter as [Hnin _].
    by apply (store_all_last before (d, p, tg) after ∅).
  - intros key Hnin. by rewrite store_all_absent.
Qed.

Lemma lookup_table_distinct_keys_witness :
  exists t,
    parse_lookup_table [Sample.lookup_rec "080" "TCP" "web";
                        Sample.lookup_rec "443" "tcp" "secure"] = Ok t
    /\ t !! (PyStr "080", "tcp") = Some (PyStr "web")
    /\ t !! (PyStr "443", "tcp") = Some (PyStr "secure")
    /\ t !! (PyStr "80", "tcp") = None.
Proof.
  destruct (lookup_table_distinct_keys
              [Sample.lookup_rec "080" "TCP" "web";
               Sample.lookup_rec "443" "tcp" "secure"]
              [(PyStr "080", "TCP", PyStr "web");
               (PyStr "443", "tcp", PyStr "secure")])
    as (t & Ht & Hrows & Hother).
  - repeat constructor; evaluate.
  - evaluate.
  - exists t. split; [exact Ht|]. split; [|split].
    + apply (Hrows (PyStr "080") "TCP" (PyStr "web")). evaluate.
    + apply (Hrows (PyStr "443") "tcp" (PyStr "secure")). evaluate.
    + apply Hother. evaluate.
Defined.

(** C6. A key may occur in several rows: the table is still built, and a
    key is answered with the tag of the last row that bears it. *)
Theorem lookup_table_last_write_wins
    (rows : list (gmap string (option string)))
    (fields : list (option string * string * option string)) :
  Forall2 has_fields rows fields ->
  exists t,
    parse_lookup_table rows = Ok t
    /\ (forall before f after,
          fields = before ++ f :: after ->
          key_of f ∉ map key_of after ->
          t !! key_of f = Some (snd f)).
Proof.
  intros Hrows. exists (fold_left store fields ∅).
  split; [by apply lookup_loop_fields|].
  intros before f after -> Hlast. by apply store_all_last.
Qed.

Lemma lookup_table_last_write_wins_witness :
  exists t,
    parse_lookup_table [Sample.lookup_rec "80" "tcp" "web";
                        Sample.lookup_rec "25" "tcp" "email";
                        Sample.lookup_rec "80" "TCP" "http"] = Ok t
    /\ t !! (PyStr "80", "tcp") = Some (PyStr "http").
Proof.
  destruct (lookup_table_last_write_wins
              [Sample.lookup_rec "80" "tcp" "web";
               Sample.lookup_rec "25" "tcp" "email";
               Sample.lookup_rec "80" "TCP" "http"]
              [(PyStr "80", "tcp", PyStr "web");
               (PyStr "25", "tcp", PyStr "email");
               (PyStr "80", "TCP", PyStr "http")])
    as (t & Ht & Hlast).
  - repeat constructor; evaluate.
  - exists t. split; [exact Ht|].
    apply (Hlast [(PyStr "80", "tcp", PyStr "web");
                  (PyStr "25", "tcp", PyStr "email")]
                 (PyStr "80", "TCP", PyStr "http") []); [reflexivity | evaluate].
Defined.

(** C7, amended. Building the table fails with an exception as soon as
    some row has no [dstport], [protocol] or [tag] column, or has [None]
    for its protocol. *)
Theorem lookup_table_missing_column
    (rows : list (gmap string (option string))) (r : gmap string (option string)) :
  r ∈ rows ->
  r !! "dstport" = None \/ lacks r "protocol" \/ r !! "tag" = None ->
  exists e, parse_lookup_table rows = Raise e.
Proof. intros Hin Hbad. by apply (lookup_loop_raises rows r). Qed.

Lemma lookup_table_missing_column_witness :
  exists e,
    parse_lookup_table [Sample.lookup_rec "80" "tcp" "web";
                        delete "tag" (Sample.lookup_rec "25" "tcp" "email")]
    = Raise e.
Proof.
  apply (lookup_table_missing_column _
           (delete "tag" (Sample.lookup_rec "25" "tcp" "email"))).
  - apply list_elem_of_In. right. left. reflexivity.
  - right. right. evaluate.
Defined.

(** C7 as stated fails on a row that is too short to reach its tag: the
    row lacks the field, the table is built all the same and holds [None]
    for the row's key. *)
Lemma lookup_table_short_row_counterexample :
  let r := Sample.short_rec "80" "tcp" in
  lacks r "tag"
  /\ parse_lookup_table [r] = Ok {[ (PyStr "80", "tcp") := PyNone ]}
  /\ ~ exists e, parse_lookup_table [r] = Raise e.
Proof.
  cbv zeta.
  assert (parse_lookup_table [Sample.short_rec "80" "tcp"]
          = Ok {[ (PyStr "80", "tcp") := PyNone ]}) as Hok by evaluate.
  split; [right; evaluate|]. split; [exact Hok|].
  intros [e He]. rewrite Hok in He. discriminate.
Qed.

(** ** The report *)

Lemma wbind_then {A B} (m : writer A) (k : writer B) out :
  wbind m (fun _ => k) out = k (snd (m out)).
Proof. unfold wbind. by destruct (m out). Qed.

Lemma writerow_out cells out : writerow cells out = (tt, out ++ [cells]).
Proof. reflexivity. Qed.

Lemma for_each_ext {A} (xs : list A) (body body' : A -> writer unit) :
  (forall x, body x = body' x) -> for_each xs body = for_each xs body'.
Proof.
  intros Hext. induction xs as [|x xs IH]; [done|].
  cbn [for_each]. by rewrite Hext, IH.
Qed.

Lemma for_each_writerow {A} (f : A -> list cell) (xs : list A) out :
  for_each xs (fun x => writerow (f x)) out = (tt, out ++ map f xs).
Proof.
  revert out. induction xs as [|x xs IH]; intros out; cbn [for_each map].
  - unfold wret. by rewrite app_nil_r.
  - rewrite wbind_then, writerow_out, IH. cbn [snd]. by rewrite <- app_assoc.
Qed.

Lemma write_output_layout tc ppc u :
  write_output tc ppc u = report_layout (Counter.items tc) (Counter.items ppc) u.
Proof.
  unfold write_output, write_output_body.
  rewrite (for_each_ext (Counter.items tc) _ (fun kv => writerow (tag_row kv)))
    by (by intros [tag count]).
  rewrite (for_each_ext (Counter.items ppc) _ (fun kv => writerow (pair_row kv)))
    by (by intros [[dstport protocol] count]).
  rewrite !wbind_then, !for_each_writerow, !writerow_out. cbn [snd app].
  unfold report_layout. by rewrite <- !app_assoc.
Qed.

Section pass_facts.
Variable lookup : gmap (option string * string) (option string).

Lemma tag_counts_section lines :
  tag_counts (parse_flow_logs lines lookup) = section_of (tags_seen lookup lines).
Proof.
  unfold parse_flow_logs. by rewrite tag_counts_flow_loop, <- tally_section.
Qed.

Lemma pair_counts_section lines :
  port_protocol_counts (parse_flow_logs lines lookup) = section_of (pairs_seen lines).
Proof.
  unfold parse_flow_logs. by rewrite pair_counts_flow_loop, <- tally_section.
Qed.

Lemma untagged_count_total lines :
  untagged_count (parse_flow_logs lines lookup)
  = Z.of_nat (length (untagged_lines lookup lines)).
Proof. unfold parse_flow_logs. by rewrite untagged_count_flow_loop. Qed.

End pass_facts.

Lemma main_report rows lines :
  main rows lines
  = let* lookup := parse_lookup_table rows in Ok (report_of lookup lines).
Proof.
  unfold main. destruct (parse_lookup_table rows) as [lookup|e]; [|done].
  cbn [bind]. f_equal. unfold report_of.
  by rewrite write_output_layout, tag_counts_section, pair_counts_section,
    untagged_count_total.
Qed.

(** C9. Whatever the three aggregates, the rows written are, in this
    order: the title and header of the tag section, one row per tag in the
    order of the dict (the tag, or [None], and its count), the [Untagged]
    row with the untagged count, an empty row, the title and header of the
    pair section, one row per pair in the order of the dict (port, protocol
    and count).  After a pass over a flow log the order of each dict is the
    order in which its keys were first observed, each key once with its
    number of observations.  No sorting takes place: the same two lines in
    the other order give the written rows in the other order. *)
Theorem report_rows_in_order :
  (forall (tc : Counter.t (option string)) (ppc : Counter.t (string * string))
          (u : Z),
     write_output tc ppc u
     = [[CStr "Tag Counts:"]; [CStr "Tag"; CStr "Count"]]
       ++ map (fun kv => [match fst kv with
                          | Some tag => CStr tag
                          | None => CNone
                          end; CInt (snd kv)]) tc
       ++ [[CStr "Untagged"; CInt u]; [];
           [CStr "Port/Protocol Combination Counts:"];
           [CStr "Port"; CStr "Protocol"; CStr "Count"]]
       ++ map (fun kv => [CStr (fst (fst kv)); CStr (snd (fst kv)); CInt (snd kv)])
              ppc)
  /\ (forall lookup lines,
        let st := parse_flow_logs lines lookup in
        tag_counts st
        = map (fun tag => (tag, occurrences tag (tags_seen lookup lines)))
              (first_seen (tags_seen lookup lines))
        /\ port_protocol_counts st
           = map (fun key => (key, occurrences key (pairs_seen lines)))
                 (first_seen (pairs_seen lines)))
  /\ (let web := Sample.flow "80" "6" in
      let email := Sample.flow "25" "6" in
      let st := parse_flow_logs [web; email; web] Sample.web_table in
      let st' := parse_flow_logs [email; web; web] Sample.web_table in
      write_output (tag_counts st) (port_protocol_counts st) (untagged_count st)
      = [[CStr "Tag Counts:"]; [CStr "Tag"; CStr "Count"];
         [CStr "web"; CInt 2]; [CStr "email"; CInt 1];
         [CStr "Untagged"; CInt 0]; [];
         [CStr "Port/Protocol Combination Counts:"];
         [CStr "Port"; CStr "Protocol"; CStr "Count"];
         [CStr "80"; CStr "tcp"; CInt 2]; [CStr "25"; CStr "tcp"; CInt 1]]
      /\ write_output (tag_counts st') (port_protocol_counts st')
                      (untagged_count st')
         = [[CStr "Tag Counts:"]; [CStr "Tag"; CStr "Count"];
            [CStr "email"; CInt 1]; [CStr "web"; CInt 2];
            [CStr "Untagged"; CInt 0]; [];
            [CStr "Port/Protocol Combination Counts:"];
            [CStr "Port"; CStr "Protocol"; CStr "Count"];
            [CStr "25"; CStr "tcp"; CInt 1]; [CStr "80"; CStr "tcp"; CInt 2]])
  /\ write_output [(PyNone, 3); (PyStr "web", 1)] [(("80", "tcp"), 4)] 5
     = [[CStr "Tag Counts:"]; [CStr "Tag"; CStr "Count"];
        [CNone; CInt 3]; [CStr "web"; CInt 1];
        [CStr "Untagged"; CInt 5]; [];
        [CStr "Port/Protocol Combination Counts:"];
        [CStr "Port"; CStr "Protocol"; CStr "Count"];
        [CStr "80"; CStr "tcp"; CInt 4]].
Proof.
  split; [|split; [|split]].
  - intros tc ppc u. exact (write_output_layout tc ppc u).
  - intros lookup lines st. subst st.
    rewrite tag_counts_section, pair_counts_section. by unfold section_of.
  - cbv zeta. split; evaluate.
  - evaluate.
Qed.

(** The end-to-end example of the specification: port 80 twice and port
    9999 once, all with protocol 6. *)
Example end_to_end :
  main [Sample.lookup_rec "80" "tcp" "web"; Sample.lookup_rec "23" "tcp" "telnet"]
       [Sample.flow "80" "6"; Sample.flow "9999" "6"; Sample.flow "80" "6"]
  = Ok [[CStr "Tag Counts:"]; [CStr "Tag"; CStr "Count"];
        [CStr "web"; CInt 2]; [CStr "Untagged"; CInt 1]; [];
        [CStr "Port/Protocol Combination Counts:"];
        [CStr "Port"; CStr "Protocol"; CStr "Count"];
        [CStr "80"; CStr "tcp"; CInt 2]].
Proof. evaluate. Qed.

(** ** Conservation *)

Lemma structurally_valid_iff line :
  structurally_valid line = true <-> (13 <= length (parts_of line))%nat.
Proof.
  unfold structurally_valid. rewrite negb_true_iff. apply Nat.ltb_ge.
Qed.

(** C10. A line with at least 13 tokens adds exactly one to exactly one of
    the tag counts or to the untagged count, and leaves the others as they
    were.  Hence after a pass the tag counts and the untagged count add up
    to the number of lines with at least 13 tokens, and no count is ever
    lower after some lines than before them. *)
Theorem counts_conservation
    (lookup : gmap (option string * string) (option string)) :
  (forall st line,
     (13 <= length (parts_of line))%nat ->
     let st' := flow_line lookup st line in
     (exists tag,
        Counter.get tag (tag_counts st') = Counter.get tag (tag_counts st) + 1
        /\ (forall other, other <> tag ->
              Counter.get other (tag_counts st') = Counter.get other (tag_counts st))
        /\ untagged_count st' = untagged_count st)
     \/ (tag_counts st' = tag_counts st
         /\ untagged_count st' = untagged_count st + 1))
  /\ (forall lines,
        let st := parse_flow_logs lines lookup in
        Counter.total (tag_counts st) + untagged_count st
        = Z.of_nat (length (filter (fun line => (13 <= length (parts_of line))%nat)
                                   lines)))
  /\ (forall st lines,
        let st' := flow_loop lookup lines st in
        (forall tag,
           Counter.get tag (tag_counts st) <= Counter.get tag (tag_counts st'))
        /\ (forall key,
              Counter.get key (port_protocol_counts st)
              <= Counter.get key (port_protocol_counts st'))
        /\ untagged_count st <= untagged_count st').
Proof.
  split; [|split].
  - intros st line Hlen st'. subst st'.
    rewrite tag_counts_flow_line, untagged_count_flow_line.
    apply structurally_valid_iff in Hlen.
    destruct (classify lookup line) as [|tag|] eqn:Hc.
    + apply classify_dropped in Hc. congruence.
    + left. exists tag. rewrite decide_False by done.
      split; [apply get_incr_eq|]. split; [|lia].
      intros other Hne. by apply get_incr_ne.
    + right. by rewrite decide_True.
  - intros lines st. subst st. unfold parse_flow_logs.
    rewrite tag_counts_flow_loop, untagged_count_flow_loop, total_tally.
    rewrite <- (list_filter_iff (fun line => structurally_valid line = true)
                  (fun line => (13 <= length (parts_of line))%nat) lines
                  structurally_valid_iff).
    rewrite (valid_lines_split lookup). simpl. lia.
  - intros st lines st'. subst st'.
    rewrite tag_counts_flow_loop, pair_counts_flow_loop, untagged_count_flow_loop.
    split; [|split].
    + intros tag. apply get_tally_le.
    + intros key. apply get_tally_le.
    + lia.
Qed.

(** * Further properties of the code *)

(** ** Tokens of a line *)

Lemma flush_clean cur :
  (forall c, c ∈ cur -> Str.isspace c = false) ->
  forall tok, tok ∈ Str.flush cur -> clean_token tok.
Proof.
  intros Hcur tok. destruct cur as [|c cur]; cbn [Str.flush].
  - by intros ?%elem_of_nil.
  - intros ->%list_elem_of_singleton. split.
    + intros Hempty.
      apply (f_equal list_ascii_of_string) in Hempty.
      rewrite list_ascii_of_string_of_list_ascii in Hempty.
      cbn [rev list_ascii_of_string] in Hempty.
      by apply app_eq_nil in Hempty as [_ ?].
    + intros c'. rewrite list_ascii_of_string_of_list_ascii.
      intros Hin%list_elem_of_In%in_rev. by apply Hcur, list_elem_of_In.
Qed.

Lemma split_from_clean cur s :
  (forall c, c ∈ cur -> Str.isspace c = false) ->
  forall tok, tok ∈ Str.split_from cur s -> clean_token tok.
Proof.
  revert cur. induction s as [|c s IH]; intros cur Hcur tok;
    cbn [Str.split_from].
  - by apply flush_clean.
  - destruct (Str.isspace c) eqn:Hc.
    + intros [Hin|Hin]%elem_of_app.
      * by apply (flush_clean cur).
      * apply (IH []); [|done]. by intros ? ?%elem_of_nil.
    + apply IH. intros c' [->|Hin]%elem_of_cons; [done | by apply Hcur].
Qed.

Lemma split_from_app cur a c b :
  Str.isspace c = true ->
  Str.split_from cur (a +:+ String c b)
  = Str.split_from cur a ++ Str.split_from [] b.
Proof.
  intros Hc. revert cur. induction a as [|c' a IH]; intros cur; simpl.
  - by rewrite Hc.
  - destruct (Str.isspace c'); [|apply IH].
    by rewrite IH, app_assoc.
Qed.

Lemma split_from_nonspace cur s :
  (forall c, c ∈ list_ascii_of_string s -> Str.isspace c = false) ->
  Str.split_from cur s = Str.flush (rev (list_ascii_of_string s) ++ cur).
Proof.
  revert cur. induction s as [|c s IH]; intros cur Hs;
    cbn [Str.split_from list_ascii_of_string rev]; [done|].
  rewrite (Hs c) by (by left).
  rewrite IH by (intros c' Hin; apply Hs; by right).
  by rewrite <- app_assoc.
Qed.

Lemma split_clean_token tok : clean_token tok -> Str.split tok = [tok].
Proof.
  intros [Hne Hs]. unfold Str.split.
  rewrite split_from_nonspace, app_nil_r by done.
  destruct tok as [|c tok]; [done|].
  cbn [list_ascii_of_string rev].
  destruct (rev (list_ascii_of_string tok) ++ [c]) as [|c' l] eqn:Hl.
  - by apply app_eq_nil in Hl as [_ ?].
  - cbn [Str.flush]. rewrite <- Hl.
    change (rev (list_ascii_of_string tok) ++ [c])
      with (rev (list_ascii_of_string (String c tok))).
    by rewrite rev_involutive, string_of_list_ascii_of_string.
Qed.

Lemma parts_of_joined a c b :
  Str.isspace c = true ->
  parts_of (a +:+ String c b) = parts_of a ++ parts_of b.
Proof.
  intros Hc. rewrite !parts_of_split. unfold Str.split.
  by apply split_from_app.
Qed.

(** X1. Every token of a line is non-empty and free of whitespace. *)
Theorem tokens_are_clean line tok : tok ∈ parts_of line -> clean_token tok.
Proof.
  rewrite parts_of_split. apply split_from_clean.
  by intros ? ?%elem_of_nil.
Qed.

Lemma tokens_are_clean_witness : clean_token "10.0.1.201".
Proof.
  apply (tokens_are_clean Sample.short_line "10.0.1.201").
  apply (bool_decide_unpack _). vm_compute. exact I.
Defined.

(** X2. The tokens of two pieces joined by a whitespace character are the
    tokens of the first followed by the tokens of the second. *)
Theorem tokens_of_joined a c b :
  Str.isspace c = true ->
  parts_of (a +:+ String c b) = parts_of a ++ parts_of b.
Proof. apply parts_of_joined. Qed.

Lemma tokens_of_joined_witness :
  parts_of ("80 tcp" +:+ String (ascii_of_nat 9) "6 web")
  = parts_of "80 tcp" ++ parts_of "6 web".
Proof. apply tokens_of_joined. reflexivity. Defined.

(** X3. Round trip: tokens written with a space after each are read back as
    they were. *)
Theorem tokens_round_trip toks :
  Forall clean_token toks -> parts_of (spaced toks) = toks.
Proof.
  induction 1 as [|tok toks Htok _ IH]; [done|].
  cbn [spaced]. change (tok +:+ " " +:+ spaced toks)
    with (tok +:+ String " "%char (spaced toks)).
  rewrite parts_of_joined by done.
  by rewrite IH, parts_of_split, split_clean_token.
Qed.

Lemma tokens_round_trip_witness :
  parts_of (spaced ["80"; "tcp"; "web"]) = ["80"; "tcp"; "web"].
Proof.
  apply tokens_round_trip.
  repeat constructor; try discriminate;
    intros c Hc; repeat (apply elem_of_cons in Hc as [->|Hc]; [reflexivity|]);
    by apply elem_of_nil in Hc.
Defined.

(** ** More on the lookup table *)

Section lookup_more.
Implicit Types (r : gmap string (option string))
  (t : gmap (option string * string) (option string))
  (f : option string * string * option string).

Lemma lower_char_idem c : Str.lower_char (Str.lower_char c) = Str.lower_char c.
Proof. destruct c as [[] [] [] [] [] [] [] []]; reflexivity. Qed.

Lemma lower_idem s : Str.lower (Str.lower s) = Str.lower s.
Proof.
  induction s as [|c s IH]; [done|].
  cbn [Str.lower]. by rewrite lower_char_idem, IH.
Qed.

Lemma well_formed_fields r : well_formed r <-> exists f, has_fields r f.
Proof.
  unfold well_formed, has_fields. split.
  - intros ([d Hd] & [p Hp] & [tg Ht]). by exists (d, p, tg).
  - intros ([[d p] tg] & Hd & Hp & Ht). simpl in *. eauto.
Qed.

Lemma entry_of_fields r f : has_fields r f -> entry_of r = Some (key_of f, snd f).
Proof.
  destruct f as [[d p] tg]. intros (Hd & Hp & Ht). simpl in *.
  unfold entry_of. by rewrite Hd, Hp, Ht.
Qed.

Lemma entry_of_Some r k tg :
  entry_of r = Some (k, tg) ->
  exists p, has_fields r (fst k, p, tg) /\ snd k = Str.lower p.
Proof.
  unfold entry_of, has_fields.
  destruct (r !! "dstport") as [d|]; [|done].
  destruct (r !! "protocol") as [[p|]|]; [|done..].
  destruct (r !! "tag") as [tg'|]; [|done].
  intros [= <- <-]. by exists p.
Qed.

Lemma Forall_well_formed_fields rows :
  Forall well_formed rows -> exists fields, Forall2 has_fields rows fields.
Proof.
  induction 1 as [|r rows Hr _ [fields IH]]; [by exists []|].
  apply well_formed_fields in Hr as [f Hf]. exists (f :: fields). by constructor.
Qed.

Lemma omap_entry_of rows fields :
  Forall2 has_fields rows fields ->
  omap entry_of rows = map (fun f => (key_of f, snd f)) fields.
Proof.
  induction 1 as [|r f rows fields Hr _ IH]; [done|].
  cbn [omap list_omap map]. by rewrite (entry_of_fields r f Hr), <- IH.
Qed.

(** The table after the loop, as a map built from the stored entries, the
    later ones first. *)
Lemma store_all_list_to_map fields t :
  fold_left store fields t
  = list_to_map (reverse (map (fun f => (key_of f, snd f)) fields)) ∪ t.
Proof.
  revert t. induction fields as [|f fields IH]; intros t; cbn [fold_left map].
  - rewrite reverse_nil. cbn [list_to_map foldr]. by rewrite (left_id ∅ (∪)).
  - rewrite IH, reverse_cons, list_to_map_app. unfold store.
    cbn [list_to_map foldr]. rewrite insert_empty.
    by rewrite <- (assoc (∪)), <- insert_union_singleton_l.
Qed.

Lemma parse_lookup_table_fields rows fields :
  Forall2 has_fields rows fields ->
  parse_lookup_table rows = Ok (list_to_map (reverse (omap entry_of rows))).
Proof.
  intros Hrows. unfold parse_lookup_table.
  rewrite (lookup_loop_fields rows fields ∅ Hrows), store_all_list_to_map.
  by rewrite (right_id ∅ (∪)), (omap_entry_of rows fields Hrows).
Qed.

Lemma lookup_loop_Ok rows t t' :
  lookup_loop rows t = Ok t' -> Forall well_formed rows.
Proof.
  revert t. induction rows as [|r rows IH]; intros t; [by constructor|].
  cbn [lookup_loop]. unfold lookup_row at 1, getitem, well_formed.
  destruct (r !! "dstport") as [d|] eqn:Hd; cbn [bind]; [|done].
  destruct (r !! "protocol") as [[p|]|] eqn:Hp; cbn [bind py_lower]; [|done..].
  destruct (r !! "tag") as [tg|] eqn:Ht; cbn [bind]; [|done].
  intros Hrest. constructor; [by eauto | by apply (IH _ Hrest)].
Qed.

End lookup_more.

Lemma parse_lookup_table_Ok_iff (rows : list (gmap string (option string))) :
  (exists t, parse_lookup_table rows = Ok t) <-> Forall well_formed rows.
Proof.
  split.
  - intros [t Ht]. by apply (lookup_loop_Ok rows ∅ t).
  - intros [fields Hf]%Forall_well_formed_fields.
    eexists. by apply (parse_lookup_table_fields rows fields).
Qed.

(** X4. The table is built exactly when every row has its three columns and a
    protocol that is not [None]; otherwise the build ends in an exception. *)
Theorem parse_lookup_table_succeeds_iff (rows : list (gmap string (option string))) :
  ((exists t, parse_lookup_table rows = Ok t) <-> Forall well_formed rows)
  /\ ((exists e, parse_lookup_table rows = Raise e) <-> ~ Forall well_formed rows).
Proof.
  pose proof (parse_lookup_table_Ok_iff rows) as Hok.
  split; [exact Hok|]. rewrite <- Hok.
  destruct (parse_lookup_table rows) as [t|e]; split.
  - by intros [e ?].
  - intros Hno. destruct Hno. by exists t.
  - by intros _ [t ?].
  - intros _. by exists e.
Qed.

Lemma parse_lookup_table_succeeds_iff_witness :
  exists t, parse_lookup_table [Sample.lookup_rec "80" "tcp" "web";
                                Sample.short_rec "25" "tcp"] = Ok t.
Proof.
  apply (proj1 (parse_lookup_table_succeeds_iff _)).
  repeat constructor; try (eexists; evaluate).
Defined.

Section lookup_errors.
Implicit Types (r : gmap string (option string))
  (t : gmap (option string * string) (option string)).

Lemma lookup_loop_app rows1 rows2 t :
  lookup_loop (rows1 ++ rows2) t
  = let* t' := lookup_loop rows1 t in lookup_loop rows2 t'.
Proof.
  revert t. induction rows1 as [|r rows1 IH]; intros t; [done|].
  cbn [app lookup_loop]. destruct (lookup_row r t) as [t'|e]; [apply IH | done].
Qed.

(** The exception a row that is not well formed ends the loop with. *)
Lemma lookup_row_exception r t :
  ~ well_formed r ->
  lookup_row r t
  = Raise match r !! "dstport" with
          | None => KeyError "dstport"
          | Some _ =>
              match r !! "protocol" with
              | None => KeyError "protocol"
              | Some None => AttributeError "lower"
              | Some (Some _) => KeyError "tag"
              end
          end.
Proof.
  unfold well_formed, lookup_row, getitem. intros Hbad.
  destruct (r !! "dstport") as [d|]; cbn [bind]; [|done].
  destruct (r !! "protocol") as [[p|]|]; cbn [bind py_lower]; [|done..].
  destruct (r !! "tag") as [tg|]; cbn [bind]; [|done].
  destruct Hbad. eauto.
Qed.

End lookup_errors.

(** X5. The first row that is not well formed decides how the build ends: the
    rows after it are not looked at, the well-formed rows before it do not
    matter, and the exception is the first that reading the row meets, in
    the order [dstport], [protocol], [.lower()], [tag]. *)
Theorem first_bad_row_decides
    (good rest : list (gmap string (option string)))
    (r : gmap string (option string)) :
  Forall well_formed good ->
  ~ well_formed r ->
  parse_lookup_table (good ++ r :: rest)
  = Raise match r !! "dstport" with
          | None => KeyError "dstport"
          | Some _ =>
              match r !! "protocol" with
              | None => KeyError "protocol"
              | Some None => AttributeError "lower"
              | Some (Some _) => KeyError "tag"
              end
          end.
Proof.
  intros [fields Hf]%Forall_well_formed_fields Hbad.
  unfold parse_lookup_table.
  rewrite lookup_loop_app, (lookup_loop_fields good fields ∅ Hf).
  cbn [bind lookup_loop]. by rewrite lookup_row_exception.
Qed.

Lemma first_bad_row_decides_witness :
  parse_lookup_table
    ([Sample.lookup_rec "80" "tcp" "web"]
     ++ {[ "dstport" := PyStr "25"; "protocol" := PyNone ]}
     :: [Sample.lookup_rec "23" "tcp" "telnet"])
  = Raise (AttributeError "lower").
Proof.
  rewrite (first_bad_row_decides [Sample.lookup_rec "80" "tcp" "web"]
             [Sample.lookup_rec "23" "tcp" "telnet"]
             {[ "dstport" := PyStr "25"; "protocol" := PyNone ]}).
  - evaluate.
  - repeat constructor; try (eexists; evaluate).
  - intros (_ & _ & [tg Htg]). vm_compute in Htg. discriminate.
Defined.

Lemma size_list_to_map_le {V} (l : list ((option string * string) * V)) :
  (size (list_to_map l : gmap (option string * string) V) <= length l)%nat.
Proof.
  induction l as [|[k v] l IH]; cbn [list_to_map foldr length].
  - by rewrite map_size_empty.
  - rewrite map_size_insert. cbn [fst].
    destruct ((list_to_map l : gmap (option string * string) V) !! k);
      unfold id; lia.
Qed.

(** X6. Every entry of the built table comes from a row: the port is the row's
    [dstport] as written, the protocol is the row's protocol lowercased,
    hence is its own lowercase, and the tag is the row's tag.  The table
    has at most as many entries as there are rows. *)
Theorem table_entries_from_rows
    (rows : list (gmap string (option string)))
    (t : gmap (option string * string) (option string)) :
  parse_lookup_table rows = Ok t ->
  (size t <= length rows)%nat
  /\ (forall dstport protocol tag,
        t !! (dstport, protocol) = Some tag ->
        Str.lower protocol = protocol
        /\ exists r written,
             r ∈ rows
             /\ r !! "dstport" = Some dstport
             /\ r !! "protocol" = Some (PyStr written)
             /\ protocol = Str.lower written
             /\ r !! "tag" = Some tag).
Proof.
  intros Hok.
  destruct (Forall_well_formed_fields rows (lookup_loop_Ok rows ∅ t Hok))
    as [fields Hf].
  rewrite (parse_lookup_table_fields rows fields Hf) in Hok.
  injection Hok as <-. split.
  - etrans; [apply size_list_to_map_le|].
    rewrite length_reverse, (omap_entry_of rows fields Hf), length_map.
    by rewrite (Forall2_length _ _ _ Hf).
  - intros d p tg Hin%elem_of_list_to_map_2.
    rewrite elem_of_reverse in Hin.
    apply list_elem_of_omap in Hin as (r & Hr & He).
    apply entry_of_Some in He as (q & (Hd & Hp & Ht) & Hlow). simpl in *.
    split; [by rewrite Hlow, lower_idem|]. by exists r, q.
Qed.

Lemma table_entries_from_rows_witness :
  (size Sample.web_table <= 3)%nat
  /\ (forall dstport protocol tag,
        Sample.web_table !! (dstport, protocol) = Some tag ->
        Str.lower protocol = protocol
        /\ exists r written,
             r ∈ [Sample.lookup_rec "80" "TCP" "web";
                  Sample.lookup_rec "25" "tcp" "smtp";
                  Sample.lookup_rec "25" "Tcp" "email"]
             /\ r !! "dstport" = Some dstport
             /\ r !! "protocol" = Some (PyStr written)
             /\ protocol = Str.lower written
             /\ r !! "tag" = Some tag).
Proof.
  apply (table_entries_from_rows
           [Sample.lookup_rec "80" "TCP" "web";
            Sample.lookup_rec "25" "tcp" "smtp";
            Sample.lookup_rec "25" "Tcp" "email"] Sample.web_table).
  evaluate.
Defined.

(** X7. When the keys of the rows are pairwise distinct, the table does not
    depend on the order of the rows. *)
Theorem table_independent_of_row_order
    (rows rows' : list (gmap string (option string))) :
  Forall well_formed rows ->
  NoDup (map fst (omap entry_of rows)) ->
  rows ≡ₚ rows' ->
  parse_lookup_table rows' = parse_lookup_table rows.
Proof.
  intros Hwf Hnodup Hperm.
  assert (Forall well_formed rows') as Hwf' by (by rewrite <- Hperm).
  apply Forall_well_formed_fields in Hwf as [fields Hf].
  apply Forall_well_formed_fields in Hwf' as [fields' Hf'].
  rewrite (parse_lookup_table_fields rows fields Hf).
  rewrite (parse_lookup_table_fields rows' fields' Hf').
  f_equal. symmetry. apply list_to_map_proper.
  - rewrite fmap_reverse, reverse_Permutation. exact Hnodup.
  - by rewrite !reverse_Permutation, Hperm.
Qed.

Lemma table_independent_of_row_order_witness :
  parse_lookup_table [Sample.lookup_rec "25" "tcp" "email";
                      Sample.lookup_rec "80" "tcp" "web"]
  = parse_lookup_table [Sample.lookup_rec "80" "tcp" "web";
                        Sample.lookup_rec "25" "tcp" "email"].
Proof.
  apply table_independent_of_row_order.
  - repeat constructor; try (eexists; evaluate).
  - evaluate.
  - apply perm_swap.
Defined.

(** ** More on a pass over the flow log *)

Section pass_more.
Implicit Types (lookup : gmap (option string * string) (option string))
  (st : counts) (line : string).

Lemma lookup_get_agree lookup1 lookup2 line protocol :
  (forall port, port ∈ valid_ports ->
     lookup1 !! (PyStr port, "tcp") = lookup2 !! (PyStr port, "tcp")) ->
  protocol_map !! item (parts_of line) 7 = Some protocol ->
  negb (bool_decide (item (parts_of line) 5 ∈ valid_ports)) = false ->
  lookup_get lookup1 (PyStr (item (parts_of line) 5), protocol)
  = lookup_get lookup2 (PyStr (item (parts_of line) 5), protocol).
Proof.
  intros Hagree Hp Hv. apply protocol_map_Some in Hp as [_ ->].
  apply negb_false_iff, bool_decide_eq_true_1 in Hv.
  unfold lookup_get. by rewrite Hagree.
Qed.

Lemma flow_line_agree lookup1 lookup2 st line :
  (forall port, port ∈ valid_ports ->
     lookup1 !! (PyStr port, "tcp") = lookup2 !! (PyStr port, "tcp")) ->
  flow_line lookup1 st line = flow_line lookup2 st line
  /\ flow_line_prints lookup1 line = flow_line_prints lookup2 line.
Proof.
  intros Hagree. unfold flow_line, flow_line_prints.
  destruct (length (parts_of line) <? 13)%nat; [done|].
  destruct (protocol_map !! item (parts_of line) 7) as [protocol|] eqn:Hp;
    [|done].
  destruct (negb (bool_decide (item (parts_of line) 5 ∈ valid_ports))) eqn:Hv;
    [done|].
  by rewrite (lookup_get_agree lookup1 lookup2 line protocol).
Qed.

Lemma flow_loop_filter lookup lines st :
  flow_loop lookup
    (filter (fun line => (13 <= length (parts_of line))%nat) lines) st
  = flow_loop lookup lines st.
Proof.
  revert st. induction lines as [|line lines IH]; intros st; [done|].
  rewrite filter_cons. unfold flow_loop in *.
  destruct (decide (13 <= length (parts_of line))%nat) as [Hlen|Hlen];
    cbn [fold_left]; [apply IH|].
  rewrite IH. f_equal. unfold flow_line.
  destruct (length (parts_of line) <? 13)%nat eqn:Hlt; [done|].
  apply Nat.ltb_ge in Hlt. lia.
Qed.

End pass_more.

(** X8. A pass consults the lookup table only at the keys (port, ["tcp"]) with
    the port in the valid set: two tables that agree there give the same
    counters and the same console output, whatever else they hold. *)
Theorem only_valid_tcp_entries_matter
    (lookup1 lookup2 : gmap (option string * string) (option string))
    (lines : list string) :
  (forall port, port ∈ valid_ports ->
     lookup1 !! (PyStr port, "tcp") = lookup2 !! (PyStr port, "tcp")) ->
  parse_flow_logs lines lookup1 = parse_flow_logs lines lookup2
  /\ parse_flow_logs_prints lines lookup1 = parse_flow_logs_prints lines lookup2.
Proof.
  intros Hagree. split.
  - unfold parse_flow_logs, flow_loop. generalize init.
    induction lines as [|line lines IH]; intros st; [done|].
    cbn [fold_left].
    by rewrite (proj1 (flow_line_agree lookup1 lookup2 st line Hagree)), IH.
  - unfold parse_flow_logs_prints. f_equal. apply map_ext. intros line.
    by apply (flow_line_agree lookup1 lookup2 init line).
Qed.

Lemma only_valid_tcp_entries_matter_witness :
  let lookup2 : gmap (option string * string) (option string) :=
    <[(PyStr "80", "udp") := PyStr "quic"]>
      (<[(PyStr "8080", "tcp") := PyStr "proxy"]>
         (<[(PyNone, "tcp") := PyStr "none"]> Sample.web_table)) in
  let lines := [Sample.flow "80" "6"; Sample.flow "8080" "6"; Sample.flow "80" "17"] in
  parse_flow_logs lines Sample.web_table = parse_flow_logs lines lookup2
  /\ parse_flow_logs_prints lines Sample.web_table
     = parse_flow_logs_prints lines lookup2.
Proof.
  cbv zeta. apply only_valid_tcp_entries_matter.
  intros port Hport.
  rewrite !lookup_insert_ne; [done | discriminate | |].
  - intros [= <-]. revert Hport. apply (bool_decide_unpack _).
    vm_compute. exact I.
  - discriminate.
Defined.

(** X9. Lines with fewer than 13 tokens are skipped without a trace: removing
    them from the log changes neither the counters nor the console
    output. *)
Theorem short_lines_leave_no_trace
    (lookup : gmap (option string * string) (option string))
    (lines : list string) :
  let kept := filter (fun line => (13 <= length (parts_of line))%nat) lines in
  parse_flow_logs kept lookup = parse_flow_logs lines lookup
  /\ parse_flow_logs_prints kept lookup = parse_flow_logs_prints lines lookup.
Proof.
  cbv zeta. split; [apply flow_loop_filter|].
  unfold parse_flow_logs_prints.
  induction lines as [|line lines IH]; [done|].
  rewrite filter_cons. cbn [map concat].
  destruct (decide (13 <= length (parts_of line))%nat) as [Hlen|Hlen].
  - cbn [map concat]. by rewrite IH.
  - rewrite IH. unfold flow_line_prints at 2.
    destruct (length (parts_of line) <? 13)%nat eqn:Hlt; [done|].
    apply Nat.ltb_ge in Hlt. lia.
Qed.

Lemma short_lines_leave_no_trace_witness :
  parse_flow_logs [Sample.flow "80" "6"] Sample.web_table
  = parse_flow_logs [Sample.short_line; Sample.flow "80" "6"; ""] Sample.web_table
  /\ parse_flow_logs_prints [Sample.flow "80" "6"] Sample.web_table
     = parse_flow_logs_prints [Sample.short_line; Sample.flow "80" "6"; ""]
         Sample.web_table.
Proof.
  apply (short_lines_leave_no_trace Sample.web_table
           [Sample.short_line; Sample.flow "80" "6"; ""]).
Defined.

Section order_facts.
Context {K : Type} `{EqDecision K}.
Implicit Types (l : list K).

Lemma occurrences_Permutation k l l' :
  l ≡ₚ l' -> occurrences k l = occurrences k l'.
Proof. intros Hperm. unfold occurrences. by rewrite Hperm. Qed.

Lemma first_seen_Permutation l l' : l ≡ₚ l' -> first_seen l ≡ₚ first_seen l'.
Proof.
  intros Hperm. apply NoDup_Permutation; [apply NoDup_first_seen ..|].
  intros k. by rewrite !elem_of_first_seen, Hperm.
Qed.

Lemma section_of_Permutation l l' : l ≡ₚ l' -> section_of l ≡ₚ section_of l'.
Proof.
  intros Hperm. unfold section_of.
  rewrite (map_ext _ (fun k => (k, occurrences k l')))
    by (intros k; by rewrite (occurrences_Permutation k l l')).
  change (map ?f ?xs) with (f <$> xs).
  by rewrite (first_seen_Permutation l l').
Qed.



End order_facts.

(** X10. The counts do not depend on the order of the lines: a reordered log
    gives the same rows in each section of the report, possibly in another
    order, and the same untagged count. *)
Theorem counts_independent_of_line_order
    (lookup : gmap (option string * string) (option string))
    (lines lines' : list string) :
  lines ≡ₚ lines' ->
  Counter.items (tag_counts (parse_flow_logs lines lookup))
    ≡ₚ Counter.items (tag_counts (parse_flow_logs lines' lookup))
  /\ Counter.items (port_protocol_counts (parse_flow_logs lines lookup))
       ≡ₚ Counter.items (port_protocol_counts (parse_flow_logs lines' lookup))
  /\ untagged_count (parse_flow_logs lines lookup)
     = untagged_count (parse_flow_logs lines' lookup).
Proof.
  intros Hperm. unfold Counter.items.
  rewrite !tag_counts_section, !pair_counts_section, !untagged_count_total.
  split; [|split].
  - apply section_of_Permutation. unfold tags_seen. by rewrite Hperm.
  - apply section_of_Permutation. unfold pairs_seen. by rewrite Hperm.
  - unfold untagged_lines. by rewrite Hperm.
Qed.

Lemma counts_independent_of_line_order_witness :
  let lines := [Sample.flow "80" "6"; Sample.flow "25" "6"; Sample.flow "22" "6"] in
  let lines' := [Sample.flow "25" "6"; Sample.flow "80" "6"; Sample.flow "22" "6"] in
  Counter.items (tag_counts (parse_flow_logs lines Sample.web_table))
    ≡ₚ Counter.items (tag_counts (parse_flow_logs lines' Sample.web_table))
  /\ Counter.items (port_protocol_counts (parse_flow_logs lines Sample.web_table))
       ≡ₚ Counter.items (port_protocol_counts (parse_flow_logs lines' Sample.web_table))
  /\ untagged_count (parse_flow_logs lines Sample.web_table)
     = untagged_count (parse_flow_logs lines' Sample.web_table).
Proof.
  cbv zeta. apply counts_independent_of_line_order. apply perm_swap.
Defined.


Section provenance.
Variable lookup : gmap (option string * string) (option string).

Lemma pair_of_Some line key :
  pair_of line = Some key <->
  reaches_lookup line /\ key = (item (parts_of line) 5, "tcp").
Proof.
  unfold pair_of, reaches_lookup.
  destruct (length (parts_of line) <? 13)%nat eqn:Hlen.
  { apply Nat.ltb_lt in Hlen. split; [done | lia]. }
  apply Nat.ltb_ge in Hlen.
  destruct (protocol_map !! item (parts_of line) 7) as [protocol|] eqn:Hp.
  - apply protocol_map_Some in Hp as [Hp ->].
    destruct (bool_decide (item (parts_of line) 5 ∈ valid_ports)) eqn:Hv;
      cbn [negb].
    + apply bool_decide_eq_true_1 in Hv. split; [|by intros [_ ->]].
      by intros [= <-].
    + apply bool_decide_eq_false_1 in Hv. split; [done | by intros [(_&_&?) _]].
  - split; [done|]. intros [(_ & Hsix & _) _].
    by rewrite Hsix, protocol_map_6 in Hp.
Qed.

Lemma classify_Tagged line tag :
  classify lookup line = Tagged tag ->
  reaches_lookup line
  /\ lookup !! (PyStr (item (parts_of line) 5), "tcp") = Some tag
  /\ tag <> PyStr "Untagged".
Proof.
  unfold classify, reaches_lookup, lookup_get.
  destruct (length (parts_of line) <? 13)%nat eqn:Hlen; [done|].
  apply Nat.ltb_ge in Hlen.
  destruct (protocol_map !! item (parts_of line) 7) as [protocol|] eqn:Hp;
    [|done].
  apply protocol_map_Some in Hp as [Hp ->].
  destruct (bool_decide (item (parts_of line) 5 ∈ valid_ports)) eqn:Hv;
    cbn [negb]; [|done].
  apply bool_decide_eq_true_1 in Hv.
  destruct (lookup !! (PyStr (item (parts_of line) 5), "tcp")) as [found|];
    cbn [default].
  - destruct (decide (found = PyStr "Untagged")) as [Hu|Hu].
    + rewrite (bool_decide_eq_true_2 _ Hu). simpl. discriminate.
    + rewrite (bool_decide_eq_false_2 _ Hu). simpl. by intros [= <-].
  - rewrite bool_decide_eq_true_2 by done. simpl. discriminate.
Qed.

Lemma length_pairs_seen lines :
  length (pairs_seen lines) = length (filter reaches_lookup lines).
Proof.
  unfold pairs_seen. induction lines as [|line lines IH]; [done|].
  rewrite filter_cons. cbn [omap list_omap].
  destruct (pair_of line) as [key|] eqn:Hp.
  - apply pair_of_Some in Hp as [Hr _]. rewrite decide_True by done.
    cbn [length]. by rewrite <- IH.
  - rewrite decide_False; [done|]. intros Hr.
    by rewrite (proj2 (pair_of_Some line _) (conj Hr eq_refl)) in Hp.
Qed.

Lemma length_tags_seen_le lines :
  (length (tags_seen lookup lines) <= length (pairs_seen lines))%nat.
Proof.
  unfold tags_seen, pairs_seen. induction lines as [|line lines IH]; [done|].
  cbn [omap list_omap].
  destruct (classify lookup line) as [|tag|] eqn:Hc;
    destruct (pair_of line) as [key|] eqn:Hp; cbn [length]; try lia.
  apply classify_Tagged in Hc as (Hr & _).
  by rewrite (proj2 (pair_of_Some line _) (conj Hr eq_refl)) in Hp.
Qed.

End provenance.

(** A duplicate-free list whose elements are all images of members of a
    finite set is no longer than the set is large. *)
Lemma length_le_size_image {A} (s : gset string) (f : string -> A) (l : list A) :
  NoDup l ->
  (forall x, x ∈ l -> exists port, f port = x /\ port ∈ s) ->
  (length l <= size s)%nat.
Proof.
  intros Hnd Hsub.
  assert (length l <= length (f <$> elements s))%nat as Hle.
  { apply submseteq_length, NoDup_submseteq; [exact Hnd|].
    intros x (port & <- & Hv)%Hsub.
    apply list_elem_of_fmap_2, elem_of_elements. exact Hv. }
  by rewrite length_fmap in Hle.
Qed.

Lemma size_valid_ports : size valid_ports = 10%nat.
Proof. vm_compute. reflexivity. Qed.

(** X12. Where the rows of the report come from.  Every pair counted has the
    protocol ["tcp"] and a port of the valid set.  Every tag counted is the
    tag the lookup table gives to such a pair, and is never the string
    ["Untagged"].  Hence each section has at most ten rows and the report at
    most 26. *)
Theorem report_keys_and_size
    (lookup : gmap (option string * string) (option string))
    (lines : list string) :
  let st := parse_flow_logs lines lookup in
  (forall port protocol,
     (port, protocol) ∈ Counter.keys (port_protocol_counts st) ->
     protocol = "tcp" /\ port ∈ valid_ports)
  /\ (forall tag,
        tag ∈ Counter.keys (tag_counts st) ->
        tag <> PyStr "Untagged"
        /\ exists port,
             port ∈ valid_ports /\ lookup !! (PyStr port, "tcp") = Some tag)
  /\ (length (Counter.items (port_protocol_counts st)) <= 10)%nat
  /\ (length (Counter.items (tag_counts st)) <= 10)%nat
  /\ (length (write_output (tag_counts st) (port_protocol_counts st)
                (untagged_count st)) <= 26)%nat.
Proof.
  cbv zeta.
  assert (forall port protocol,
            (port, protocol)
              ∈ Counter.keys (port_protocol_counts (parse_flow_logs lines lookup)) ->
            protocol = "tcp" /\ port ∈ valid_ports) as Hpairs.
  { intros port protocol.
    rewrite pair_counts_section, <- tally_section, keys_tally, elem_of_first_seen.
    unfold pairs_seen. rewrite list_elem_of_omap.
    intros (line & _ & Hp). apply pair_of_Some in Hp as [(_ & _ & Hv) [= -> ->]].
    done. }
  assert (forall tag,
            tag ∈ Counter.keys (tag_counts (parse_flow_logs lines lookup)) ->
            tag <> PyStr "Untagged"
            /\ exists port,
                 port ∈ valid_ports /\ lookup !! (PyStr port, "tcp") = Some tag)
    as Htags.
  { intros tag.
    rewrite tag_counts_section, <- tally_section, keys_tally, elem_of_first_seen.
    unfold tags_seen. rewrite list_elem_of_omap.
    intros (line & _ & Hc).
    destruct (classify lookup line) as [|tag'|] eqn:Hc'; try done.
    injection Hc as ->.
    apply classify_Tagged in Hc' as ((_ & _ & Hv) & Hfound & Hne). eauto. }
  assert (forall (A : Type) (f : string -> A) (l : list A),
            NoDup l ->
            (forall x, x ∈ l -> exists port, f port = x /\ port ∈ valid_ports) ->
            (length l <= 10)%nat) as Hbound.
  { intros A f l Hnd Hsub.
    pose proof (length_le_size_image valid_ports f l Hnd Hsub) as Hle.
    rewrite size_valid_ports in Hle. exact Hle. }
  assert (length (Counter.items (port_protocol_counts (parse_flow_logs lines lookup)))
          <= 10)%nat as Hnp.
  { unfold Counter.items.
    rewrite <- (length_map fst).
    apply (Hbound _ (fun port => (port, "tcp"))).
    - rewrite pair_counts_section, <- tally_section.
      change (NoDup (Counter.keys (tally (pairs_seen lines) Counter.empty))).
      rewrite keys_tally. apply NoDup_first_seen.
    - intros [port protocol] Hin. apply Hpairs in Hin as [-> Hv]. by exists port. }
  assert (length (Counter.items (tag_counts (parse_flow_logs lines lookup)))
          <= 10)%nat as Hnt.
  { unfold Counter.items.
    rewrite <- (length_map fst).
    apply (Hbound _ (fun port => lookup_get lookup (PyStr port, "tcp"))).
    - rewrite tag_counts_section, <- tally_section.
      change (NoDup (Counter.keys (tally (tags_seen lookup lines) Counter.empty))).
      rewrite keys_tally. apply NoDup_first_seen.
    - intros tag Hin. apply Htags in Hin as (_ & port & Hv & Hfound).
      exists port. split; [unfold lookup_get; by rewrite Hfound | done]. }
  split; [exact Hpairs|]. split; [exact Htags|].
  split; [exact Hnp|]. split; [exact Hnt|].
  rewrite write_output_layout. unfold report_layout.
  rewrite !length_app, !length_map. cbn [length]. unfold Counter.items in *. lia.
Qed.

Lemma length_pairs_seen_le lookup lines :
  (length (pairs_seen lines)
   <= length (tags_seen lookup lines) + length (untagged_lines lookup lines))%nat.
Proof.
  unfold pairs_seen, tags_seen, untagged_lines.
  induction lines as [|line lines IH]; [done|].
  rewrite filter_cons. cbn [omap list_omap].
  destruct (pair_of line) as [key|] eqn:Hp.
  - apply pair_of_Some in Hp as [(Hlen & _) _].
    apply structurally_valid_iff in Hlen.
    destruct (classify lookup line) as [|tag|] eqn:Hc.
    + apply classify_dropped in Hc. congruence.
    + rewrite decide_False by done. cbn [length]. lia.
    + rewrite decide_True by done. cbn [length]. lia.
  - destruct (classify lookup line) as [|tag|];
      repeat case_decide; cbn [length]; lia.
Qed.

(** X13. The pair counts add up to the number of lines that reach the lookup
    (at least 13 tokens, protocol ["6"], valid port).  The tag counts add
    up to no more than that, and the tag counts together with the untagged
    count to no less. *)
Theorem pair_counts_total
    (lookup : gmap (option string * string) (option string))
    (lines : list string) :
  let st := parse_flow_logs lines lookup in
  Counter.total (port_protocol_counts st)
  = Z.of_nat (length (filter reaches_lookup lines))
  /\ Counter.total (tag_counts st) <= Counter.total (port_protocol_counts st)
  /\ Counter.total (port_protocol_counts st)
     <= Counter.total (tag_counts st) + untagged_count st.
Proof.
  cbv zeta. unfold parse_flow_logs.
  rewrite tag_counts_flow_loop, pair_counts_flow_loop, untagged_count_flow_loop.
  rewrite !total_tally, length_pairs_seen.
  change (Counter.total (port_protocol_counts init)) with 0.
  change (Counter.total (tag_counts init)) with 0.
  change (untagged_count init) with 0.
  pose proof (length_tags_seen_le lookup lines) as Hle.
  pose proof (length_pairs_seen_le lookup lines) as Hge.
  rewrite length_pairs_seen in Hle, Hge. lia.
Qed.

(** ** More on the report *)

Lemma tag_row_inj kv kv' : tag_row kv = tag_row kv' -> kv = kv'.
Proof.
  destruct kv as [[tag|] n], kv' as [[tag'|] n']; unfold tag_row; simpl;
    intros [= ]; by subst.
Qed.

Lemma pair_row_inj kv kv' : pair_row kv = pair_row kv' -> kv = kv'.
Proof.
  destruct kv as [[port protocol] n], kv' as [[port' protocol'] n'].
  unfold pair_row. simpl. intros [= ]. by subst.
Qed.

Lemma map_inj {A B} (f : A -> B) (l l' : list A) :
  (forall x y, f x = f y -> x = y) -> map f l = map f l' -> l = l'.
Proof.
  intros Hinj. revert l'. induction l as [|x l IH]; intros [|y l']; try done.
  cbn [map]. intros [= Hxy Hrest]. f_equal; [by apply Hinj | by apply IH].
Qed.

(** The tag section is delimited by the empty row: the row before it is
    the [Untagged] row, whatever the tags are called. *)
Lemma tag_section_inj tc tc' u u' (rest rest' : list (list cell)) :
  map tag_row tc ++ [CStr "Untagged"; CInt u] :: [] :: rest
  = map tag_row tc' ++ [CStr "Untagged"; CInt u'] :: [] :: rest' ->
  tc = tc' /\ u = u' /\ rest = rest'.
Proof.
  revert tc'. induction tc as [|kv tc IH]; intros [|kv' tc']; cbn [map app].
  - intros Heq. by simplify_eq.
  - intros Heq. apply (f_equal (drop 1)) in Heq. cbn [drop] in Heq.
    destruct tc'; discriminate Heq.
  - intros Heq. apply (f_equal (drop 1)) in Heq. cbn [drop] in Heq.
    destruct tc; discriminate Heq.
  - intros Heq.
    assert (tag_row kv = tag_row kv') as Hkv.
    { apply (f_equal head) in Heq. cbn [head] in Heq. by apply (inj Some) in Heq. }
    apply (f_equal (drop 1)) in Heq. cbn [drop] in Heq.
    apply tag_row_inj in Hkv as ->.
    by apply IH in Heq as (-> & -> & ->).
Qed.

(** X14. Nothing is lost in the report: the rows written determine the tag
    counts, the pair counts (each with its order) and the untagged count. *)
Theorem report_determines_counts tc ppc u tc' ppc' u' :
  write_output tc ppc u = write_output tc' ppc' u' ->
  tc = tc' /\ ppc = ppc' /\ u = u'.
Proof.
  rewrite !write_output_layout. unfold report_layout, Counter.items.
  cbn [app]. intros Hrows.
  apply (f_equal (drop 2)) in Hrows. cbn [drop] in Hrows.
  apply tag_section_inj in Hrows as (-> & -> & Hrest).
  apply (f_equal (drop 2)) in Hrest. cbn [drop] in Hrest.
  apply map_inj in Hrest; [by subst | apply pair_row_inj].
Qed.

Lemma report_determines_counts_witness :
  [(PyStr "web", 2)] = [(PyStr "web", 2)]
  /\ [(("80", "tcp"), 2)] = [(("80", "tcp"), 2)]
  /\ 1 = 1.
Proof.
  apply (report_determines_counts
           [(PyStr "web", 2)] [(("80", "tcp"), 2)] 1
           [(PyStr "web", 2)] [(("80", "tcp"), 2)] 1).
  reflexivity.
Defined.

(** ** Console output *)

Section console.
Variable lookup : gmap (option string * string) (option string).

Lemma untagged_message_facts x y :
  untagged_message ("Processing Line: " +:+ x) = false
  /\ untagged_message ("Destination Port: " +:+ x) = false
  /\ untagged_message "Counted as Untagged" = true
  /\ untagged_message ("No tag found for Port: " +:+ x +:+ y) = true.
Proof.
  repeat split; try reflexivity.
  unfold untagged_message. cbn. by destruct (x +:+ y).
Qed.

Lemma processing_message_facts x y :
  processing_message ("Processing Line: " +:+ x) = true
  /\ processing_message ("Destination Port: " +:+ x) = false
  /\ processing_message "Counted as Untagged" = false
  /\ processing_message ("No tag found for Port: " +:+ x +:+ y) = false.
Proof.
  repeat split; try reflexivity.
  unfold processing_message. cbn. by destruct x.
Qed.

Ltac count_messages facts :=
  cbn [app]; rewrite ?filter_cons, ?filter_nil;
  repeat match goal with
         | |- context [decide (?m (?p +:+ ?x +:+ ?y) = true)] =>
             let H := fresh in
             pose proof (facts x y) as H;
             first [ rewrite (decide_True (P := m (p +:+ x +:+ y) = true))
                       by (rewrite (proj2 (proj2 (proj2 H))); done)
                   | rewrite (decide_False (P := m (p +:+ x +:+ y) = true))
                       by (rewrite (proj2 (proj2 (proj2 H))); done)
                   | rewrite (decide_False (P := m (p +:+ x +:+ y) = true))
                       by (rewrite (proj1 (proj2 H)); done) ];
             clear H
         | |- context [decide (?m (?p +:+ ?x) = true)] =>
             let H := fresh in
             pose proof (facts x EmptyString) as H;
             first [ rewrite (decide_True (P := m (p +:+ x) = true))
                       by (rewrite (proj1 H); done)
                   | rewrite (decide_False (P := m (p +:+ x) = true))
                       by (rewrite (proj1 H); done)
                   | rewrite (decide_False (P := m (p +:+ x) = true))
                       by (rewrite (proj1 (proj2 H)); done) ];
             clear H
         end;
  repeat case_decide; try done; try discriminate.

Lemma flow_line_prints_untagged line :
  length (filter (fun s => untagged_message s = true)
                 (flow_line_prints lookup line))
  = if decide (classify lookup line = Untagged) then 1%nat else 0%nat.
Proof.
  unfold flow_line_prints, classify.
  destruct (length (parts_of line) <? 13)%nat; [done|].
  destruct (protocol_map !! item (parts_of line) 7) as [protocol|];
    [|by count_messages untagged_message_facts].
  destruct (negb (bool_decide (item (parts_of line) 5 ∈ valid_ports)));
    [by count_messages untagged_message_facts|].
  destruct (negb (bool_decide (lookup_get lookup _ = PyStr "Untagged")));
    by count_messages untagged_message_facts.
Qed.

Lemma flow_line_prints_processing line :
  length (filter (fun s => processing_message s = true)
                 (flow_line_prints lookup line))
  = if decide (13 <= length (parts_of line))%nat then 1%nat else 0%nat.
Proof.
  unfold flow_line_prints.
  destruct (length (parts_of line) <? 13)%nat eqn:Hlen.
  { apply Nat.ltb_lt in Hlen. rewrite decide_False by lia. done. }
  apply Nat.ltb_ge in Hlen. rewrite decide_True by done.
  destruct (protocol_map !! item (parts_of line) 7) as [protocol|];
    [|by count_messages processing_message_facts].
  destruct (negb (bool_decide (item (parts_of line) 5 ∈ valid_ports)));
    [by count_messages processing_message_facts|].
  destruct (negb (bool_decide (lookup_get lookup _ = PyStr "Untagged")));
    by count_messages processing_message_facts.
Qed.

End console.

(** X15. The console tells the same story as the counters: after a pass the
    untagged count is the number of messages "Counted as Untagged" or
    "No tag found for Port: ..." printed, and the number of messages
    "Processing Line: ..." is the number of lines with at least 13 tokens. *)
Theorem console_matches_counts
    (lookup : gmap (option string * string) (option string))
    (lines : list string) :
  let printed := parse_flow_logs_prints lines lookup in
  untagged_count (parse_flow_logs lines lookup)
  = Z.of_nat (length (filter (fun s => untagged_message s = true) printed))
  /\ length (filter (fun s => processing_message s = true) printed)
     = length (filter (fun line => (13 <= length (parts_of line))%nat) lines).
Proof.
  cbv zeta. rewrite untagged_count_total.
  unfold parse_flow_logs_prints, untagged_lines. split.
  - f_equal. induction lines as [|line lines IH]; [done|].
    cbn [map concat]. rewrite filter_app, length_app, filter_cons.
    rewrite flow_line_prints_untagged, <- IH.
    by destruct (decide (classify lookup line = Untagged)).
  - induction lines as [|line lines IH]; [done|].
    cbn [map concat]. rewrite filter_app, length_app, filter_cons.
    rewrite flow_line_prints_processing, IH.
    by destruct (decide (13 <= length (parts_of line))%nat).
Qed.
